(** * Banking Fraud Guard dashboard (app.py): a shallow embedding

    The Streamlit script of [src/app.py] is re-run from top to bottom on every
    interaction.  One run is modelled as a computation in a small
    state-and-exception monad over the persistent [st.session_state] dictionary
    and the list of elements the run renders.  Third-party calls (PIL,
    pdf2image, scikit-image, easyocr, DeepFace, pandas' CSV reader, reportlab's
    file output, Python's number formatting) are the fields of a [Library]
    record: the script is verified for every behaviour of these calls.

    Modelling decisions:
    - Python floats are IEEE binary64 numbers: Rocq's primitive [float].
    - Strings are sequences of one-byte characters.
    - A [DataFrame] is the header and the rows of cells; a cell is a number
      (NaN when missing) or text.  The values [Series.mean()] and
      [Series.std()] compute on a numeric column are library calls (their
      summation order is the library's); written out are only the cases
      pandas fixes: [std] is NaN unless more than [ddof=1] values are left,
      and reductions and comparisons raise TypeError on a column that holds
      text.
    - Streamlit's rendering calls never raise; each appends one element to the
      page.  Static page furniture (headers, tabs, the style sheet) is left
      out.  What Streamlit keeps under the widgets' own keys is part of
      [widgets]; [session_state] holds the keys the script assigns.
    - Canvas positions are whole millimetres; the source scales them by the
      constant [mm] into points. *)

From Stdlib Require Import ZArith List String Ascii Bool Lia.
From Stdlib Require Import Floats Uint63.
From stdpp Require Import gmap strings pretty.
Import ListNotations.

Set Warnings "-inexact-float".

Local Open Scope string_scope.
Local Open Scope Z_scope.
Local Open Scope list_scope.

(** ** Python values and exceptions *)

(** The values the script stores in dictionaries. *)
Inductive pyval :=
| VNone
| VBool (b : bool)
| VInt (n : Z)
| VFloat (f : float)
| VStr (s : string).

(** [except Exception as e]: an exception is its class name and the text
    [f"{e}"] shows. *)
Record exn := Exception { exn_class : string; exn_text : string }.

Inductive result (A : Type) :=
| Ok (a : A)
| Raise (e : exn).
Arguments Ok {A} a.
Arguments Raise {A} e.

(** ** Elements rendered by a run *)

Inductive cell :=
| Num (x : float)
| Text (s : string).

(** A parsed CSV: the header and the rows, each row a list of cells. *)
Record DataFrame := { columns : list string; rows : list (list cell) }.

Inductive element :=
| StError (msg : string)
| StWarning (msg : string)
| StSuccess (msg : string)
| StWrite (msg : string)
| StWriteFrame (df : DataFrame)
| StMetric (label : string) (value : Z)
| StDataframe (df : DataFrame)
| StTextArea (label text : string)
| StImage (captions : list string)
| StDownloadButton (label file_name : string).

(** ** The script monad *)

Record world := World { session_state : gmap string pyval; rendered : list element }.

Definition st (A : Type) : Type := world -> result A * world.

Definition ret {A} (a : A) : st A := fun w => (Ok a, w).

Definition bind {A B} (m : st A) (k : A -> st B) : st B :=
  fun w => match m w with
           | (Ok a, w') => k a w'
           | (Raise e, w') => (Raise e, w')
           end.

Declare Scope st_scope.
Delimit Scope st_scope with st.
Notation "x <- m ;; k" := (bind m (fun x => k))
  (at level 100, m at next level, right associativity) : st_scope.
Notation "m ;; k" := (bind m (fun _ => k))
  (at level 100, right associativity) : st_scope.
Local Open Scope st_scope.

(** A library call inside the script: its outcome is returned or raised. *)
Definition call {A} (r : result A) : st A := fun w => (r, w).

Definition raise {A} (e : exn) : st A := call (Raise e).

(** [try: body  except Exception as e: handler e] *)
Definition try_except {A} (body : st A) (handler : exn -> st A) : st A :=
  fun w => match body w with
           | (Raise e, w') => handler e w'
           | r => r
           end.

(** [st.session_state.k = v] *)
Definition set_state (k : string) (v : pyval) : st unit :=
  fun w => (Ok tt, World (<[k := v]> (session_state w)) (rendered w)).

(** [st.session_state.k]: an AttributeError when the key was never set. *)
Definition get_state (k : string) : st pyval :=
  fun w => match session_state w !! k with
           | Some v => (Ok v, w)
           | None => (Raise (Exception "AttributeError"
                               ("st.session_state has no attribute " +:+ k)), w)
           end.

(** [st.error(..)], [st.write(..)], ...: the element is appended to the page. *)
Definition show (e : element) : st unit :=
  fun w => (Ok tt, World (session_state w) (rendered w ++ [e])).

(** The same on plain results, for helper functions that touch no state. *)
Definition rbind {A B} (r : result A) (k : A -> result B) : result B :=
  match r with
  | Ok a => k a
  | Raise e => Raise e
  end.

(** ** Binary64 numbers of a pandas column *)

(** Counts as floats (exact below 2^53). *)
Definition float_of_nat (n : nat) : float :=
  PrimFloat.of_uint63 (Uint63.of_Z (Z.of_nat n)).

(** [float(n)] of an integer below 2^63 in magnitude. *)
Definition float_of_Z (n : Z) : float :=
  if n <? 0 then (- PrimFloat.of_uint63 (Uint63.of_Z (- n)))%float
  else PrimFloat.of_uint63 (Uint63.of_Z n).

(** [skipna=True]: missing values (NaN) are left out. *)
Definition notna (xs : list float) : list float :=
  List.filter (fun x => negb (PrimFloat.is_nan x)) xs.

Definition fsum (xs : list float) : float :=
  fold_left PrimFloat.add xs 0%float.

(** A mean and a sample standard deviation that add from left to right.
    They serve as the answers of the sample library below; pandas adds in
    numpy's own order, which differs in the last bits on longer columns. *)
Definition left_mean (xs : list float) : float :=
  let v := notna xs in
  match length v with
  | O => nan
  | n => (fsum v / float_of_nat n)%float
  end.

Definition left_std (xs : list float) : float :=
  let v := notna xs in
  let count := length v in
  let avg := (fsum v / float_of_nat count)%float in
  let sqr := map (fun x => ((avg - x) * (avg - x))%float) v in
  PrimFloat.sqrt (fsum sqr / float_of_nat (count - 1))%float.

(** ** Python strings *)

Definition newline : ascii := ascii_of_nat 10.

Definition lower_char (c : ascii) : ascii :=
  let n := nat_of_ascii c in
  if ((65 <=? n) && (n <=? 90))%nat then ascii_of_nat (n + 32) else c.

Definition upper_char (c : ascii) : ascii :=
  let n := nat_of_ascii c in
  if ((97 <=? n) && (n <=? 122))%nat then ascii_of_nat (n - 32) else c.

Fixpoint map_chars (f : ascii -> ascii) (s : string) : string :=
  match s with
  | EmptyString => EmptyString
  | String c s' => String (f c) (map_chars f s')
  end.

(** [s.lower()] and [s.upper()], on ASCII text. *)
Definition lower : string -> string := map_chars lower_char.
Definition upper : string -> string := map_chars upper_char.

(** [s.endswith(suffix)] *)
Definition endswith (s suffix : string) : bool :=
  let n := String.length s in
  let k := String.length suffix in
  ((k <=? n)%nat && String.eqb (substring (n - k) k s) suffix).

(** [s.replace(old, new)] for one-character [old] and [new]. *)
Definition replace_char (old new : ascii) : string -> string :=
  map_chars (fun c => if Ascii.eqb c old then new else c).

(** [s[i:i+n]] *)
Definition slice (i n : nat) (s : string) : string := substring i n s.

(** [" ".join(parts)] *)
Definition join (sep : string) (parts : list string) : string := String.concat sep parts.

(** [f"{n}"] of an integer. *)
Definition str_int (n : Z) : string := pretty n.

(** [data.get(key)] *)
Definition dict_get (data : gmap string pyval) (key : string) : pyval :=
  default VNone (data !! key).

(** ** Uploads and the third-party library *)

(** A Streamlit [UploadedFile]: its name and its bytes. *)
Record uploaded_file := Upload { name : string; content : list Byte.byte }.

(** The dictionary [DeepFace.verify] returns, read through
    [res.get("distance", 0.0)] and [res.get("verified", False)]: either key may
    be absent. *)
Record verify_result := { distance : option float; verified : option bool }.

(** What reportlab's canvas records.  Positions are kept in whole millimetres
    on the A4 page (the source multiplies each by the constant [mm]). *)
Inductive canvas_op :=
| SetFont (face : string) (size : Z)
| DrawString (x y : Z) (text : string)
| ShowPage.

Record Library := {
  image : Type;
  ndarray : Type;
  (* PIL.Image.open *)
  Image_open : uploaded_file -> result image;
  (* pdf2image.convert_from_bytes *)
  convert_from_bytes : list Byte.byte -> result (list image);
  (* Image.convert(mode), Image.resize(size), np.array(image) *)
  convert : string -> image -> image;
  resize : Z * Z -> image -> image;
  np_array : image -> ndarray;
  (* skimage structural_similarity(a, b, full=True): the score and the map *)
  ssim : ndarray -> ndarray -> float * ndarray;
  (* easyocr Reader(["en"]).readtext: the recognised text of each box *)
  readtext : ndarray -> list string;
  (* re.findall(pattern, text) *)
  re_findall : string -> string -> list string;
  (* DeepFace.verify(a, b, enforce_detection=False) *)
  DeepFace_verify : ndarray -> ndarray -> result verify_result;
  (* pd.read_csv *)
  read_csv : uploaded_file -> result DataFrame;
  (* Series.mean() and Series.std() of a float64 column *)
  Series_mean : list float -> float;
  Series_std : list float -> float;
  (* canvas.save(): the recorded page is written to the output path *)
  canvas_save : string -> list canvas_op -> result unit;
  (* f"{x:spec}" of a float; the empty spec is f"{x}" *)
  format_float : string -> float -> string;
}.

(** ** Helper functions of the script *)

Section Script.

Variable L : Library.

(** [load_image] on an upload that is present (lines 51-56). *)
Definition load_file (uploaded_file : uploaded_file) : result (image L) :=
  let name := lower (name uploaded_file) in
  if endswith name ".pdf" then
    rbind (convert_from_bytes L (content uploaded_file)) (fun pages =>
      match pages with
      | page :: _ => Ok page
      | [] => Raise (Exception "IndexError" "list index out of range")
      end)
  else
    Image_open L uploaded_file.

(** [load_image]: [None] for no upload (lines 49-50). *)
Definition load_image (uploaded_file : option uploaded_file) : result (option (image L)) :=
  match uploaded_file with
  | None => Ok None
  | Some f => rbind (load_file f) (fun img => Ok (Some img))
  end.

(** Truth value of a Python object. *)
Definition truthy (v : pyval) : bool :=
  match v with
  | VNone => false
  | VBool b => b
  | VInt n => negb (n =? 0)
  | VFloat f => negb (f =? 0)%float
  | VStr s => negb (String.eqb s "")
  end.

(** [f"{v}"] *)
Definition py_str (v : pyval) : string :=
  match v with
  | VNone => "None"
  | VBool true => "True"
  | VBool false => "False"
  | VInt n => str_int n
  | VFloat f => format_float L "" f
  | VStr s => s
  end.

(** A4 is 210 mm by 297 mm. *)
Definition A4 : Z * Z := (210, 297).

(** The line drawn under a section title (lines 83-88). *)
Definition value_line (val : pyval) : string :=
  match val with
  | VNone => "Not analyzed"
  | VStr s => replace_char newline " " (slice 0 200 s) +:+ "..."
  | _ => py_str val
  end.

(** The loop over the six result sections (lines 71-89): the drawing
    operations and the value of [y] after the loop. *)
Fixpoint draw_sections (y : Z) (items : list (string * pyval)) : list canvas_op * Z :=
  match items with
  | [] => ([], y)
  | (title, val) :: items' =>
      let '(ops, y') := draw_sections (y - 6 - 8) items' in
      (SetFont "Helvetica-Bold" 12 :: DrawString 20 y title ::
       SetFont "Helvetica" 10 :: DrawString 20 (y - 6) (value_line val) :: ops, y')
  end.

(** [(remarks[i:i+90] for i in range(0, len(remarks), 90))] *)
Definition remark_lines (remarks : string) : list string :=
  let n := String.length remarks in
  map (fun k => slice (90 * k) 90 remarks) (seq 0 ((n + 89) / 90)).

Fixpoint draw_lines (y : Z) (lines : list string) : list canvas_op :=
  match lines with
  | [] => []
  | line :: lines' => DrawString 20 y line :: draw_lines (y - 6) lines'
  end.

(** The titles of lines 72-77 and the keys read under them. *)
Definition section_fields : list (string * string) :=
  [ ("Document Forgery", "forgery_score");
    ("Signature Verification", "signature_score");
    ("Aadhaar OCR", "aadhaar_text");
    ("PAN OCR", "pan_text");
    ("KYC Face Match", "face_distance");
    ("Transaction Summary", "transaction_frauds_count") ].

Definition report_sections (data : gmap string pyval) : list (string * pyval) :=
  map (fun '(title, key) => (title, dict_get data key)) section_fields.

(** The drawing part of [generate_report_pdf] (lines 59-100); [now] is the
    formatted clock reading of line 64. *)
Definition report_ops (now : string) (data : gmap string pyval) : result (list canvas_op) :=
  let h := snd A4 in
  let head :=
    [ SetFont "Helvetica-Bold" 16;
      DrawString 20 (h - 20) "Banking Fraud Guard - Fraud Detection Report";
      SetFont "Helvetica" 10;
      DrawString 20 (h - 26) ("Generated: " +:+ now) ]
    ++ (if truthy (dict_get data "customer_name")
        then [DrawString 20 (h - 32) ("Customer: " +:+ py_str (dict_get data "customer_name"))]
        else [])
    ++ (if truthy (dict_get data "reference")
        then [DrawString 20 (h - 38) ("Ref: " +:+ py_str (dict_get data "reference"))]
        else []) in
  let '(body, y) := draw_sections (h - 48) (report_sections data) in
  let remarks := match data !! "remarks" with Some v => v | None => VStr "None" end in
  match remarks with
  | VStr r =>
      Ok (head ++ body
          ++ [SetFont "Helvetica-Bold" 12; DrawString 20 y "Remarks"; SetFont "Helvetica" 10]
          ++ draw_lines (y - 6) (remark_lines r)
          ++ [ShowPage])
  | _ => Raise (Exception "TypeError" "object has no len()")
  end.

(** [generate_report_pdf] *)
Definition generate_report_pdf (output_path now : string) (data : gmap string pyval)
  : result unit :=
  rbind (report_ops now data) (canvas_save L output_path).

(** ** Widgets of one run *)

Inductive button :=
| AnalyzeForForgery
| VerifySignature
| ExtractAadhaar
| ExtractPAN
| CompareFaces
| AnalyzeTransactions
| GeneratePDFReport.

#[global] Instance button_eq_dec : EqDecision button.
Proof. solve_decision. Defined.

(** What the widgets return in one run of the script.  A click re-runs the
    script with exactly that button returning [True], so at most one button is
    pressed in a run.  [clock] and [clock_compact] are the two formatted
    readings of [datetime.datetime.now()] (lines 64 and 273), [tmpd] the
    directory [tempfile.mkdtemp()] returns. *)
Record widgets := {
  orig : option uploaded_file;
  sus : option uploaded_file;
  sig_orig : option uploaded_file;
  sig_sus : option uploaded_file;
  aad : option uploaded_file;
  pan : option uploaded_file;
  id_face : option uploaded_file;
  live_face : option uploaded_file;
  txn : option uploaded_file;
  cust_name : string;
  ref : string;
  remarks : string;
  clicked : option button;
  clock : string;
  clock_compact : string;
  tmpd : string;
}.

(** [st.button(label)] *)
Definition st_button (w : widgets) (b : button) : bool :=
  bool_decide (clicked w = Some b).

(** ** Session initialisation (lines 106-116) *)

Definition session_keys : list string :=
  [ "forgery_score"; "signature_score"; "aadhaar_text"; "pan_text";
    "face_distance"; "face_verified"; "transaction_frauds_count" ].

(** [key in st.session_state] *)
Definition has_key (key : string) : st bool :=
  fun w => (Ok (match session_state w !! key with Some _ => true | None => false end), w).

Fixpoint for_each {A} (l : list A) (body : A -> st unit) : st unit :=
  match l with
  | [] => ret tt
  | x :: l' => body x ;; for_each l' body
  end.

Definition init_session : st unit :=
  for_each session_keys (fun key =>
    present <- has_key key ;;
    if present then ret tt else set_state key VNone).

(** ** Document forgery and signature tabs

    [diff_img], the difference map scaled to bytes, is only handed to
    [st.image] and is not kept in the rendered element. *)

(** [load_image(f).convert("L").resize((n, n))] *)
Definition load_gray (f : uploaded_file) (n : Z) : result (image L) :=
  rbind (load_file f) (fun img => Ok (resize L (n, n) (convert L "L" img))).

Definition tab_forgery (w : widgets) : st unit :=
  if st_button w AnalyzeForForgery then
    match orig w, sus w with
    | Some orig, Some sus =>
        pil1 <- call (load_gray orig 600) ;;
        pil2 <- call (load_gray sus 600) ;;
        let '(score, diff) := ssim L (np_array L pil1) (np_array L pil2) in
        set_state "forgery_score" (VFloat score) ;;
        show (StWrite ("Similarity Score: " +:+ format_float L ".3f" score)) ;;
        (if (0.9 <? score)%float then show (StSuccess "No forgery detected.")
         else if (0.6 <? score)%float then show (StWarning "Minor differences detected.")
         else show (StError "High chance of forgery.")) ;;
        show (StImage ["Original"; "Suspect"; "Diff Map"])
    | _, _ => show (StError "Please upload both files.")
    end
  else ret tt.

Definition tab_signature (w : widgets) : st unit :=
  if st_button w VerifySignature then
    match sig_orig w, sig_sus w with
    | Some sig_orig, Some sig_sus =>
        p1 <- call (load_gray sig_orig 300) ;;
        p2 <- call (load_gray sig_sus 300) ;;
        let '(sscore, _) := ssim L (np_array L p1) (np_array L p2) in
        set_state "signature_score" (VFloat sscore) ;;
        show (StWrite ("Signature Similarity: " +:+ format_float L ".3f" sscore)) ;;
        (if (0.85 <? sscore)%float then show (StSuccess "Signatures appear genuine.")
         else if (0.6 <? sscore)%float then show (StWarning "Partial match - suspicious.")
         else show (StError "Signatures likely forged.")) ;;
        show (StImage ["Original Sig"; "Suspect Sig"])
    | _, _ => show (StError "Upload both signatures.")
    end
  else ret tt.

(** ** Aadhaar and PAN tabs

    The reader object and its recognition are one library call, [readtext]. *)

(** [reader.readtext(np.array(load_image(f).convert("RGB")))], joined. *)
Definition ocr_text (f : uploaded_file) : result string :=
  rbind (load_file f) (fun img =>
    Ok (join " " (readtext L (np_array L (convert L "RGB" img))))).

Definition tab_aadhaar (w : widgets) : st unit :=
  if st_button w ExtractAadhaar then
    match aad w with
    | None => show (StError "Upload Aadhaar file.")
    | Some aad =>
        text <- call (ocr_text aad) ;;
        set_state "aadhaar_text" (VStr text) ;;
        show (StTextArea "Extracted Text" text) ;;
        match re_findall L "\d{4}\s*\d{4}\s*\d{4}|\d{12}" text with
        | found :: _ => show (StSuccess ("Aadhaar-like number found: " +:+ found))
        | [] => show (StWarning "No 12-digit Aadhaar number detected.")
        end
    end
  else ret tt.

Definition tab_pan (w : widgets) : st unit :=
  if st_button w ExtractPAN then
    match pan w with
    | None => show (StError "Upload PAN file.")
    | Some pan =>
        textp <- call (ocr_text pan) ;;
        set_state "pan_text" (VStr textp) ;;
        show (StTextArea "Extracted Text" textp) ;;
        match re_findall L "[A-Z]{5}[0-9]{4}[A-Z]" (upper textp) with
        | found :: _ => show (StSuccess ("PAN-like number found: " +:+ found))
        | [] => show (StWarning "PAN number not confidently detected.")
        end
    end
  else ret tt.

(** ** KYC tab *)

(** Line 230, the library expression under [try]. *)
Definition verify_faces (id_face live_face : uploaded_file) : result verify_result :=
  rbind (load_file id_face) (fun img1 =>
  rbind (load_file live_face) (fun img2 =>
    DeepFace_verify L (np_array L img1) (np_array L img2))).

(** [f"{v:spec}"] with a float format: numbers only. *)
Definition py_format (spec : string) (v : pyval) : result string :=
  match v with
  | VFloat f => Ok (format_float L spec f)
  | VInt n => Ok (format_float L spec (float_of_Z n))
  | VBool b => Ok (format_float L spec (if b then 1 else 0)%float)
  | VNone => Raise (Exception "TypeError" "unsupported format string passed to NoneType.__format__")
  | VStr _ => Raise (Exception "ValueError" "Unknown format code 'f' for object of type 'str'")
  end.

Definition tab_kyc (w : widgets) : st unit :=
  if st_button w CompareFaces then
    match id_face w, live_face w with
    | Some id_face, Some live_face =>
        try_except
          (res <- call (verify_faces id_face live_face) ;;
           set_state "face_distance" (VFloat (default 0%float (distance res))) ;;
           set_state "face_verified" (VBool (default false (verified res))) ;;
           d <- get_state "face_distance" ;;
           shown <- call (py_format ".4f" d) ;;
           show (StWrite ("Distance: " +:+ shown)) ;;
           v <- get_state "face_verified" ;;
           if truthy v then show (StSuccess "Face match verified.")
           else show (StError "Face mismatch."))
          (fun e => show (StError ("Face verification error: " +:+ exn_text e)))
    | _, _ => show (StError "Please upload both ID and live photos.")
    end
  else ret tt.

(** ** Transactions tab *)

Fixpoint index_of (key : string) (l : list string) : option nat :=
  match l with
  | [] => None
  | k :: l' => if String.eqb key k then Some O else option_map S (index_of key l')
  end.

(** [df[key]]: the cells of one column; a short row reads as missing (NaN). *)
Definition df_column (df : DataFrame) (key : string) : result (list cell) :=
  match index_of key (columns df) with
  | Some i => Ok (map (fun row => nth i row (Num nan)) (rows df))
  | None => Raise (Exception "KeyError" key)
  end.

(** The floats of a numeric column.  A column holding text has dtype object,
    and its reductions and comparisons with a number raise TypeError. *)
Fixpoint to_numeric (s : list cell) : result (list float) :=
  match s with
  | [] => Ok []
  | Num x :: s' => rbind (to_numeric s') (fun xs => Ok (x :: xs))
  | Text t :: _ => Raise (Exception "TypeError" ("Could not convert string '" +:+ t +:+ "' to numeric"))
  end.

(** [Series.mean()] of a numeric column. *)
Definition mean (xs : list float) : float := Series_mean L xs.

(** [Series.std()] of a numeric column, [ddof=1]: NaN when no more than one
    value is left after the missing ones are skipped; otherwise what the
    library computes. *)
Definition std (xs : list float) : float :=
  if (length (notna xs) <=? 1)%nat then nan else Series_std L xs.

(** [s.mean()], [s.std()] and [s > threshold] on a column. *)
Definition series_mean (s : list cell) : result float :=
  rbind (to_numeric s) (fun xs => Ok (mean xs)).

Definition series_std (s : list cell) : result float :=
  rbind (to_numeric s) (fun xs => Ok (std xs)).

Definition series_gt (s : list cell) (threshold : float) : result (list bool) :=
  rbind (to_numeric s) (fun xs => Ok (map (fun x => (threshold <? x)%float) xs)).

(** [l[mask]]: the entries whose mask bit is set. *)
Fixpoint select {A} (mask : list bool) (l : list A) : list A :=
  match mask, l with
  | b :: mask', x :: l' => if b then x :: select mask' l' else select mask' l'
  | _, _ => []
  end.

(** [df[mask]], [df.head()], [len(df)], [df.empty] *)
Definition df_select (df : DataFrame) (mask : list bool) : DataFrame :=
  {| columns := columns df; rows := select mask (rows df) |}.

Definition df_head (df : DataFrame) : DataFrame :=
  {| columns := columns df; rows := firstn 5 (rows df) |}.

Definition df_len (df : DataFrame) : Z := Z.of_nat (length (rows df)).

Definition df_empty (df : DataFrame) : bool :=
  match columns df, rows df with
  | _ :: _, _ :: _ => false
  | _, _ => true
  end.

Definition tab_transactions (w : widgets) : st unit :=
  if st_button w AnalyzeTransactions then
    match txn w with
    | None => show (StError "Upload CSV.")
    | Some txn =>
        try_except
          (df <- call (read_csv L txn) ;;
           show (StWriteFrame (df_head df)) ;;
           if negb (bool_decide ("amount" ∈ columns df)) then
             show (StWarning "CSV must have 'amount' column.")
           else
             amount <- call (df_column df "amount") ;;
             m <- call (series_mean amount) ;;
             sd <- call (series_std amount) ;;
             let threshold := (m + 3 * sd)%float in
             mask <- call (series_gt amount threshold) ;;
             let frauds := df_select df mask in
             set_state "transaction_frauds_count" (VInt (df_len frauds)) ;;
             show (StMetric "Potential Fraud Transactions" (df_len frauds)) ;;
             if negb (df_empty frauds) then show (StDataframe frauds) else ret tt)
          (fun e => show (StError ("CSV read error: " +:+ exn_text e)))
    end
  else ret tt.

(** ** Report section (lines 271-291) *)

Definition report_file_name (w : widgets) : string :=
  "fraud_report_" +:+ clock_compact w +:+ ".pdf".

(** The dictionary literal of lines 274-285. *)
Definition read_report_data (w : widgets) : st (gmap string pyval) :=
  forgery_score <- get_state "forgery_score" ;;
  signature_score <- get_state "signature_score" ;;
  aadhaar_text <- get_state "aadhaar_text" ;;
  pan_text <- get_state "pan_text" ;;
  face_distance <- get_state "face_distance" ;;
  face_verified <- get_state "face_verified" ;;
  transaction_frauds_count <- get_state "transaction_frauds_count" ;;
  ret (list_to_map
         [ ("customer_name", VStr (cust_name w));
           ("reference", VStr (ref w));
           ("forgery_score", forgery_score);
           ("signature_score", signature_score);
           ("aadhaar_text", aadhaar_text);
           ("pan_text", pan_text);
           ("face_distance", face_distance);
           ("face_verified", face_verified);
           ("transaction_frauds_count", transaction_frauds_count);
           ("remarks", VStr (remarks w)) ]).

Definition out_pdf (w : widgets) : string :=
  tmpd w +:+ "/" +:+ report_file_name w.

Definition report (w : widgets) : st unit :=
  if st_button w GeneratePDFReport then
    data <- read_report_data w ;;
    try_except
      (call (generate_report_pdf (out_pdf w) (clock w) data) ;;
       show (StDownloadButton "📥 Download Fraud Report (PDF)" (report_file_name w)))
      (fun e => show (StError ("PDF generation error: " +:+ exn_text e)))
  else ret tt.

(** ** One run of the script *)

Definition script (w : widgets) : st unit :=
  init_session ;;
  tab_forgery w ;;
  tab_signature w ;;
  tab_aadhaar w ;;
  tab_pan w ;;
  tab_kyc w ;;
  tab_transactions w ;;
  report w.

(** A run starts on an empty page with the session the previous run left. *)
Definition run (w : widgets) (session : gmap string pyval) : result unit * world :=
  script w (World session []).

(** The session after a sequence of interactions. *)
Definition runs (ws : list widgets) (session : gmap string pyval) : gmap string pyval :=
  fold_left (fun s w => session_state (snd (run w s))) ws session.

End Script.

(** ** A concrete library for evaluating the script

    Every call answers with a fixed outcome: images are the bytes of the
    upload, a PDF has the given pages, means and deviations add from left to
    right, and the remaining calls return the outcomes passed in. *)
Definition canned_library
    (pages : result (list (list Byte.byte)))
    (score : float) (texts : list string)
    (faces : result verify_result) (csv : result DataFrame)
    (saved : result unit) : Library :=
  {| image := list Byte.byte;
     ndarray := list Byte.byte;
     Image_open := fun f => Ok (content f);
     convert_from_bytes := fun _ => pages;
     convert := fun _ img => img;
     resize := fun _ img => img;
     np_array := fun img => img;
     ssim := fun a b => (score, a);
     readtext := fun _ => texts;
     re_findall := fun _ _ => [];
     DeepFace_verify := fun _ _ => faces;
     read_csv := fun _ => csv;
     Series_mean := left_mean;
     Series_std := left_std;
     canvas_save := fun _ _ => saved;
     format_float := fun spec _ => "<float" +:+ spec +:+ ">" |}.

Definition no_widgets : widgets :=
  {| orig := None; sus := None; sig_orig := None; sig_sus := None;
     aad := None; pan := None; id_face := None; live_face := None; txn := None;
     cust_name := ""; ref := ""; remarks := ""; clicked := None;
     clock := "2024-01-01 10:00:00"; clock_compact := "20240101_100000";
     tmpd := "/tmp/tmpabc" |}.

Definition click (b : button) (w : widgets) : widgets :=
  {| orig := orig w; sus := sus w; sig_orig := sig_orig w; sig_sus := sig_sus w;
     aad := aad w; pan := pan w; id_face := id_face w; live_face := live_face w;
     txn := txn w; cust_name := cust_name w; ref := ref w; remarks := remarks w;
     clicked := Some b; clock := clock w; clock_compact := clock_compact w;
     tmpd := tmpd w |}.

Definition with_txn (f : uploaded_file) (w : widgets) : widgets :=
  {| orig := orig w; sus := sus w; sig_orig := sig_orig w; sig_sus := sig_sus w;
     aad := aad w; pan := pan w; id_face := id_face w; live_face := live_face w;
     txn := Some f; cust_name := cust_name w; ref := ref w; remarks := remarks w;
     clicked := clicked w; clock := clock w; clock_compact := clock_compact w;
     tmpd := tmpd w |}.

Definition quiet_library : Library :=
  canned_library (Ok []) 1%float [] (Ok {| distance := None; verified := None |})
    (Ok {| columns := []; rows := [] |}) (Ok tt).

Definition csv_file : uploaded_file := Upload "t.csv" [].

Definition photo : uploaded_file := Upload "face.png" [].

Definition with_faces (f1 f2 : uploaded_file) (w : widgets) : widgets :=
  {| orig := orig w; sus := sus w; sig_orig := sig_orig w; sig_sus := sig_sus w;
     aad := aad w; pan := pan w; id_face := Some f1; live_face := Some f2;
     txn := txn w; cust_name := cust_name w; ref := ref w; remarks := remarks w;
     clicked := clicked w; clock := clock w; clock_compact := clock_compact w;
     tmpd := tmpd w |}.

Definition no_faces : verify_result := {| distance := None; verified := None |}.

(** Libraries that differ from the quiet one in a single call. *)
Definition lib_csv (csv : result DataFrame) : Library :=
  canned_library (Ok []) 1%float [] (Ok no_faces) csv (Ok tt).

Definition lib_faces (faces : result verify_result) : Library :=
  canned_library (Ok []) 1%float [] faces (Ok {| columns := []; rows := [] |}) (Ok tt).

Definition lib_save (saved : result unit) : Library :=
  canned_library (Ok []) 1%float [] (Ok no_faces) (Ok {| columns := []; rows := [] |}) saved.

Definition lib_pages (pages : result (list (list Byte.byte))) : Library :=
  canned_library pages 1%float [] (Ok no_faces) (Ok {| columns := []; rows := [] |}) (Ok tt).

Definition txn_click : widgets := click AnalyzeTransactions (with_txn csv_file no_widgets).

Definition faces_click : widgets := click CompareFaces (with_faces photo photo no_widgets).

Definition report_click : widgets := click GeneratePDFReport no_widgets.

Definition boom : exn := Exception "RuntimeError" "boom".

(** Sample tables. *)
Definition ids_only : DataFrame :=
  {| columns := ["id"]; rows := [[Num 1]; [Num 2]] |}.

Definition text_amounts : DataFrame :=
  {| columns := ["id"; "amount"];
     rows := [[Num 1; Text "12 USD"]; [Num 2; Text "40 USD"]] |}.

Definition one_text_amount : DataFrame :=
  {| columns := ["id"; "amount"]; rows := [[Num 1; Text "12 USD"]] |}.

Definition one_amount : DataFrame :=
  {| columns := ["id"; "amount"]; rows := [[Num 1; Num 250]] |}.

(** Eleven payments of 10 and one of 1000. *)
Definition payments : DataFrame :=
  {| columns := ["id"; "amount"];
     rows := map (fun i => [Num (float_of_nat i); Num 10]) (seq 1 11)
             ++ [[Num 12; Num 1000]] |}.

Definition payment_amounts : list float :=
  repeat 10%float 11 ++ [1000%float].

Definition scan : uploaded_file := Upload "Scan.PDF" [].

Definition two_pages : list (list Byte.byte) := [[Byte.x01]; [Byte.x02]].

(** A session whose Aadhaar text spans two lines. *)
Definition two_line_text : string := "UID 1234" +:+ String newline "5678 9012".

Definition ocr_session : gmap string pyval :=
  <["aadhaar_text" := VStr two_line_text]> ∅.

(** ** Vocabulary of the statements *)

(** What line 116 does to one key of the session. *)
Definition init_key (session : gmap string pyval) (key : string) : gmap string pyval :=
  match session !! key with
  | Some _ => session
  | None => <[key := VNone]> session
  end.

(** The session after the initialisation loop. *)
Definition initialised (session : gmap string pyval) : gmap string pyval :=
  fold_left init_key session_keys session.

(** The part of the script a button guards. *)
Definition section_of (L : Library) (b : button) : widgets -> st unit :=
  match b with
  | AnalyzeForForgery => tab_forgery L
  | VerifySignature => tab_signature L
  | ExtractAadhaar => tab_aadhaar L
  | ExtractPAN => tab_pan L
  | CompareFaces => tab_kyc L
  | AnalyzeTransactions => tab_transactions L
  | GeneratePDFReport => report L
  end.

(** The session fields each button's section assigns. *)
Definition fields_of (b : button) : list string :=
  match b with
  | AnalyzeForForgery => ["forgery_score"]
  | VerifySignature => ["signature_score"]
  | ExtractAadhaar => ["aadhaar_text"]
  | ExtractPAN => ["pan_text"]
  | CompareFaces => ["face_distance"; "face_verified"]
  | AnalyzeTransactions => ["transaction_frauds_count"]
  | GeneratePDFReport => []
  end.

(** The uploads a button's section requires (lines 133, 161, 182, 202, 226,
    246) and the message it shows when one is missing. *)
Definition required_uploads (b : button) (w : widgets) : list (option uploaded_file) :=
  match b with
  | AnalyzeForForgery => [orig w; sus w]
  | VerifySignature => [sig_orig w; sig_sus w]
  | ExtractAadhaar => [aad w]
  | ExtractPAN => [pan w]
  | CompareFaces => [id_face w; live_face w]
  | AnalyzeTransactions => [txn w]
  | GeneratePDFReport => []
  end.

Definition upload_message (b : button) : string :=
  match b with
  | AnalyzeForForgery => "Please upload both files."
  | VerifySignature => "Upload both signatures."
  | ExtractAadhaar => "Upload Aadhaar file."
  | ExtractPAN => "Upload PAN file."
  | CompareFaces => "Please upload both ID and live photos."
  | AnalyzeTransactions => "Upload CSV."
  | GeneratePDFReport => ""
  end.

(** The values of a numeric 'amount' column. *)
Definition amounts (df : DataFrame) : result (list float) :=
  rbind (df_column df "amount") to_numeric.

(** The cell of a row under the 'amount' column, as [df["amount"]] reads it. *)
Definition amount_of (df : DataFrame) (row : list cell) : cell :=
  match index_of "amount" (columns df) with
  | Some i => nth i row (Num nan)
  | None => Num nan
  end.

(** [amount > threshold] for one row. *)
Definition exceeds (df : DataFrame) (threshold : float) (row : list cell) : bool :=
  match amount_of df row with
  | Num x => (threshold <? x)%float
  | Text _ => false
  end.

(** The dictionary handed to [generate_report_pdf] for a session. *)
Definition report_data (w : widgets) (session : gmap string pyval) : gmap string pyval :=
  list_to_map
    [ ("customer_name", VStr (cust_name w));
      ("reference", VStr (ref w));
      ("forgery_score", dict_get session "forgery_score");
      ("signature_score", dict_get session "signature_score");
      ("aadhaar_text", dict_get session "aadhaar_text");
      ("pan_text", dict_get session "pan_text");
      ("face_distance", dict_get session "face_distance");
      ("face_verified", dict_get session "face_verified");
      ("transaction_frauds_count", dict_get session "transaction_frauds_count");
      ("remarks", VStr (remarks w)) ].

(** The height in millimetres at which each section title is drawn. *)
Definition section_heights : list (string * string * Z) :=
  [ ("Document Forgery", "forgery_score", 249);
    ("Signature Verification", "signature_score", 235);
    ("Aadhaar OCR", "aadhaar_text", 221);
    ("PAN OCR", "pan_text", 207);
    ("KYC Face Match", "face_distance", 193);
    ("Transaction Summary", "transaction_frauds_count", 179) ].

(** The texts a canvas draws, in drawing order. *)
Fixpoint drawn_texts (ops : list canvas_op) : list string :=
  match ops with
  | [] => []
  | DrawString _ _ text :: ops' => text :: drawn_texts ops'
  | _ :: ops' => drawn_texts ops'
  end.

(** [rendered] extended by the elements [es]. *)
Definition page (wd : world) (es : list element) : world :=
  World (session_state wd) (rendered wd ++ es).

(** ** The style sheet loader (lines 23-30)

    [read_text file_name] stands for [open(file_name, "r").read()]; what
    [local_css] hands to [st.markdown] or [st.warning] is its result. *)

Inductive page_note :=
| Markdown (body : string)
| PageWarning (msg : string).

Definition local_css (read_text : string -> result string) (file_name : string)
  : result page_note :=
  match read_text file_name with
  | Ok css => Ok (Markdown ("<style>" +:+ css +:+ "</style>"))
  | Raise e =>
      if String.eqb (exn_class e) "FileNotFoundError" then
        Ok (PageWarning ("⚠ CSS file '" +:+ file_name
                         +:+ "' not found. Continuing without styling."))
      else Raise e
  end.

(** ** Further vocabulary and sample inputs *)

(** The verdict lines of the forgery tab (143-148) and of the signature tab
    (169-174). *)
Definition forgery_verdict (score : float) : element :=
  if (0.9 <? score)%float then StSuccess "No forgery detected."
  else if (0.6 <? score)%float then StWarning "Minor differences detected."
  else StError "High chance of forgery.".

Definition signature_verdict (sscore : float) : element :=
  if (0.85 <? sscore)%float then StSuccess "Signatures appear genuine."
  else if (0.6 <? sscore)%float then StWarning "Partial match - suspicious."
  else StError "Signatures likely forged.".

(** The kinds of value each session field may hold. *)
Definition none_or_float (v : pyval) : Prop :=
  match v with VNone | VFloat _ => True | _ => False end.

Definition none_or_str (v : pyval) : Prop :=
  match v with VNone | VStr _ => True | _ => False end.

Definition none_or_bool (v : pyval) : Prop :=
  match v with VNone | VBool _ => True | _ => False end.

Definition none_or_count (v : pyval) : Prop :=
  match v with VNone => True | VInt n => 0 <= n | _ => False end.

Definition session_typed (s : gmap string pyval) : Prop :=
  none_or_float (dict_get s "forgery_score")
  /\ none_or_float (dict_get s "signature_score")
  /\ none_or_str (dict_get s "aadhaar_text")
  /\ none_or_str (dict_get s "pan_text")
  /\ none_or_float (dict_get s "face_distance")
  /\ none_or_bool (dict_get s "face_verified")
  /\ none_or_count (dict_get s "transaction_frauds_count")
  /\ (dict_get s "face_distance" = VNone <-> dict_get s "face_verified" = VNone).

Definition with_docs (f1 f2 : uploaded_file) (w : widgets) : widgets :=
  {| orig := Some f1; sus := Some f2; sig_orig := sig_orig w; sig_sus := sig_sus w;
     aad := aad w; pan := pan w; id_face := id_face w; live_face := live_face w;
     txn := txn w; cust_name := cust_name w; ref := ref w; remarks := remarks w;
     clicked := clicked w; clock := clock w; clock_compact := clock_compact w;
     tmpd := tmpd w |}.

Definition with_sigs (f1 f2 : uploaded_file) (w : widgets) : widgets :=
  {| orig := orig w; sus := sus w; sig_orig := Some f1; sig_sus := Some f2;
     aad := aad w; pan := pan w; id_face := id_face w; live_face := live_face w;
     txn := txn w; cust_name := cust_name w; ref := ref w; remarks := remarks w;
     clicked := clicked w; clock := clock w; clock_compact := clock_compact w;
     tmpd := tmpd w |}.

Definition with_cards (f1 f2 : uploaded_file) (w : widgets) : widgets :=
  {| orig := orig w; sus := sus w; sig_orig := sig_orig w; sig_sus := sig_sus w;
     aad := Some f1; pan := Some f2; id_face := id_face w; live_face := live_face w;
     txn := txn w; cust_name := cust_name w; ref := ref w; remarks := remarks w;
     clicked := clicked w; clock := clock w; clock_compact := clock_compact w;
     tmpd := tmpd w |}.

Definition with_remarks (r : string) (w : widgets) : widgets :=
  {| orig := orig w; sus := sus w; sig_orig := sig_orig w; sig_sus := sig_sus w;
     aad := aad w; pan := pan w; id_face := id_face w; live_face := live_face w;
     txn := txn w; cust_name := cust_name w; ref := ref w; remarks := r;
     clicked := clicked w; clock := clock w; clock_compact := clock_compact w;
     tmpd := tmpd w |}.

Definition lib_score (score : float) : Library :=
  canned_library (Ok []) score [] (Ok no_faces) (Ok {| columns := []; rows := [] |}) (Ok tt).

Definition lib_ocr (texts : list string) : Library :=
  canned_library (Ok []) 1%float texts (Ok no_faces) (Ok {| columns := []; rows := [] |}) (Ok tt).

(** A text of [n] letters. *)
Definition letters (n : nat) : string := string_of_list_ascii (repeat "a"%char n).

(** ** Tactics *)

(** Unfolds the monad's operations. *)
Ltac st_unfold :=
  unfold bind, call, raise, show, set_state, get_state, try_except, ret, has_key, page in *.

(** Decides a closed membership by evaluation. *)
Ltac in_keys := apply (bool_decide_unpack _); vm_compute; exact I.

(** Runs a section symbolically: case analysis on every scrutinee. *)
Ltac crush_section :=
  repeat first
    [ progress cbn [fst snd session_state rendered negb rbind py_format default]
    | rewrite lookup_insert_eq
    | rewrite lookup_insert_ne by discriminate
    | match goal with
      | |- context [match ?x with _ => _ end] =>
          lazymatch x with
          | context [match _ with _ => _ end] => fail
          | _ => destruct x eqn:?
          end
      end ].

Ltac unfold_sections :=
  unfold section_of, tab_forgery, tab_signature, tab_aadhaar, tab_pan, tab_kyc,
    tab_transactions, report, read_report_data in *; st_unfold.

(** Reads a key in a map built by inserts. *)
Ltac read_delta :=
  repeat first [ rewrite lookup_insert_eq
               | rewrite lookup_insert_ne by discriminate
               | rewrite lookup_empty ].

(** * Properties *)

(** ** Evaluating the helpers *)

Example mean_123 : mean quiet_library [1; 2; 3]%float = 2%float.
Proof. reflexivity. Qed.

Example std_123 : std quiet_library [1; 2; 3]%float = 1%float.
Proof. reflexivity. Qed.

Example std_single : std quiet_library [5]%float = nan.
Proof. reflexivity. Qed.

Example payments_threshold :
  (mean quiet_library payment_amounts + 3 * std quiet_library payment_amounts <? 1000)%float
  = true
  /\ (mean quiet_library payment_amounts + 3 * std quiet_library payment_amounts <? 10)%float
     = false.
Proof. split; reflexivity. Qed.

Example endswith_pdf :
  endswith (lower "Scan.PDF") ".pdf" = true /\ endswith (lower "scan.png") ".pdf" = false
  /\ endswith "pdf" ".pdf" = false.
Proof. repeat split. Qed.

Example remark_lines_200 :
  map String.length (remark_lines (string_of_list_ascii (repeat "a"%char 200))) = [90; 90; 20]%nat
  /\ remark_lines "" = [].
Proof. split; reflexivity. Qed.

Example first_run_initialises :
  session_state (snd (run quiet_library no_widgets ∅))
  = list_to_map (map (fun k => (k, VNone)) session_keys).
Proof. reflexivity. Qed.

(** ** The monad and one run *)

Lemma init_session_spec wd :
  init_session wd = (Ok tt, World (initialised (session_state wd)) (rendered wd)).
Proof.
  unfold init_session, initialised.
  generalize session_keys as keys. intros keys. revert wd.
  induction keys as [|k keys IH]; intros [s r]; simpl.
  - reflexivity.
  - st_unfold. simpl. unfold init_key at 2.
    destruct (s !! k); simpl; rewrite IH; reflexivity.
Qed.

Lemma section_not_clicked L w b wd :
  clicked w <> Some b -> section_of L b w wd = (Ok tt, wd).
Proof.
  intros H. destruct b; simpl;
    unfold tab_forgery, tab_signature, tab_aadhaar, tab_pan, tab_kyc,
      tab_transactions, report, st_button;
    rewrite bool_decide_eq_false_2 by exact H; reflexivity.
Qed.

Lemma script_sections L w :
  script L w =
  (init_session ;;
   section_of L AnalyzeForForgery w ;; section_of L VerifySignature w ;;
   section_of L ExtractAadhaar w ;; section_of L ExtractPAN w ;;
   section_of L CompareFaces w ;; section_of L AnalyzeTransactions w ;;
   section_of L GeneratePDFReport w).
Proof. reflexivity. Qed.

(** A run executes the section of the pressed button on the initialised
    session and nothing else. *)
Lemma run_clicked L w s b :
  clicked w = Some b ->
  run L w s = section_of L b w (World (initialised s) []).
Proof.
  intros Hb. unfold run. rewrite script_sections.
  unfold bind at 1. rewrite init_session_spec. cbn [session_state rendered].
  set (wd := World (initialised s) []).
  assert (Hother : forall b', b' <> b -> forall wd', section_of L b' w wd' = (Ok tt, wd')).
  { intros b' Hne wd'. apply section_not_clicked. rewrite Hb. congruence. }
  destruct b; unfold bind;
    repeat (rewrite Hother by discriminate);
    destruct (section_of L _ w wd) as [[[]|e] wd'] eqn:E; try reflexivity;
    repeat (rewrite Hother by discriminate); reflexivity.
Qed.

Lemma run_idle L w s :
  clicked w = None -> run L w s = (Ok tt, World (initialised s) []).
Proof.
  intros Hb. unfold run. rewrite script_sections.
  unfold bind. rewrite init_session_spec. cbn [session_state rendered].
  repeat (rewrite section_not_clicked by (rewrite Hb; discriminate)). reflexivity.
Qed.

(** ** The session after initialisation *)

Lemma init_key_lookup s key k :
  init_key s key !! k =
  match s !! k with
  | Some v => Some v
  | None => if decide (key = k) then Some VNone else None
  end.
Proof.
  unfold init_key. destruct (decide (key = k)) as [->|Hne].
  - destruct (s !! k) eqn:E; [exact E | apply lookup_insert_eq].
  - destruct (s !! key); [destruct (s !! k); reflexivity |].
    rewrite lookup_insert_ne by exact Hne. destruct (s !! k); reflexivity.
Qed.

Lemma initialised_lookup s k :
  initialised s !! k =
  match s !! k with
  | Some v => Some v
  | None => if bool_decide (k ∈ session_keys) then Some VNone else None
  end.
Proof.
  unfold initialised. generalize session_keys as keys. intros keys. revert s.
  induction keys as [|key keys IH]; intros s; simpl.
  - destruct (s !! k); reflexivity.
  - rewrite IH, init_key_lookup. destruct (s !! k) as [v|]; [reflexivity |].
    destruct (decide (key = k)) as [->|Hne].
    + rewrite bool_decide_eq_true_2 by left. reflexivity.
    + destruct (bool_decide (k ∈ keys)) eqn:E.
      * apply bool_decide_eq_true_1 in E.
        rewrite bool_decide_eq_true_2 by (right; exact E). reflexivity.
      * apply bool_decide_eq_false_1 in E.
        rewrite bool_decide_eq_false_2; [reflexivity |].
        intros Hin. apply elem_of_cons in Hin as [->|Hin]; [congruence | contradiction].
Qed.

Lemma initialised_has_key s k :
  k ∈ session_keys -> initialised s !! k = Some (dict_get (initialised s) k).
Proof.
  intros Hk. unfold dict_get. rewrite initialised_lookup.
  destruct (s !! k); [reflexivity |].
  rewrite bool_decide_eq_true_2 by exact Hk. reflexivity.
Qed.

Lemma read_report_data_spec w s page :
  read_report_data w (World (initialised s) page)
  = (Ok (report_data w (initialised s)), World (initialised s) page).
Proof.
  unfold read_report_data, report_data. st_unfold. cbn [session_state rendered].
  repeat (rewrite initialised_has_key by in_keys; cbn [session_state rendered]).
  reflexivity.
Qed.

(** ** Missing uploads *)

Lemma section_missing_upload L b w wd :
  clicked w = Some b -> None ∈ required_uploads b w ->
  section_of L b w wd = (Ok tt, page wd [StError (upload_message b)]).
Proof.
  intros Hb Hmiss.
  destruct b; simpl in *;
    unfold tab_forgery, tab_signature, tab_aadhaar, tab_pan, tab_kyc,
      tab_transactions, report, st_button;
    rewrite bool_decide_eq_true_2 by exact Hb;
    repeat match goal with
           | |- context [match ?u w with _ => _ end] => destruct (u w) eqn:?
           end;
    try reflexivity;
    exfalso; clear -Hmiss;
    repeat (apply elem_of_cons in Hmiss as [Hmiss|Hmiss]; [discriminate |]);
    apply elem_of_nil in Hmiss; exact Hmiss.
Qed.

(** C3. When a section's button is pressed while one of its required uploads
    is missing, the section renders exactly its inline error message, returns
    normally and leaves every session field as it was; the outcome mentions no
    library call, so no analysis ran.  For a whole run this means: the page
    holds only the error and the session is the initialised one. *)
Theorem missing_upload_shows_error (L : Library) (b : button) (w : widgets) :
  clicked w = Some b ->
  None ∈ required_uploads b w ->
  (forall wd, section_of L b w wd
              = (Ok tt, World (session_state wd) (rendered wd ++ [StError (upload_message b)])))
  /\ (forall s, run L w s = (Ok tt, World (initialised s) [StError (upload_message b)])).
Proof.
  intros Hb Hmiss. split.
  - intros wd. apply section_missing_upload; assumption.
  - intros s. rewrite (run_clicked L w s b Hb).
    rewrite section_missing_upload by assumption. reflexivity.
Qed.

Lemma missing_upload_shows_error_witness :
  run quiet_library (click AnalyzeForForgery no_widgets) ∅
  = (Ok tt, World (initialised ∅) [StError "Please upload both files."]).
Proof.
  refine (proj2 (missing_upload_shows_error quiet_library AnalyzeForForgery
                   (click AnalyzeForForgery no_widgets) eq_refl _) ∅).
  simpl. apply list_elem_of_here.
Defined.

(** ** A CSV without an 'amount' column *)

Lemma tab_transactions_no_amount L w wd f df :
  clicked w = Some AnalyzeTransactions -> txn w = Some f ->
  read_csv L f = Ok df -> "amount" ∉ columns df ->
  tab_transactions L w wd
  = (Ok tt, page wd [StWriteFrame (df_head df); StWarning "CSV must have 'amount' column."]).
Proof.
  intros Hb Hf Hcsv Hcol. unfold tab_transactions, st_button.
  rewrite bool_decide_eq_true_2 by exact Hb. rewrite Hf.
  st_unfold. rewrite Hcsv. cbn [session_state rendered].
  rewrite bool_decide_eq_false_2 by exact Hcol. cbn [negb session_state rendered].
  rewrite <- app_assoc. reflexivity.
Qed.

(** C5. When the uploaded CSV parses but has no column named 'amount', the
    run renders the head of the table and the warning, and nothing else (no
    metric, so no threshold was used); it returns normally and
    transaction_frauds_count keeps its value: the one it had, or None when it
    was never set. *)
Theorem csv_without_amount_column (L : Library) (w : widgets) (f : uploaded_file)
    (df : DataFrame) (s : gmap string pyval) :
  clicked w = Some AnalyzeTransactions ->
  txn w = Some f ->
  read_csv L f = Ok df ->
  "amount" ∉ columns df ->
  run L w s
  = (Ok tt, World (initialised s)
              [StWriteFrame (df_head df); StWarning "CSV must have 'amount' column."])
  /\ initialised s !! "transaction_frauds_count"
     = Some (dict_get s "transaction_frauds_count").
Proof.
  intros Hb Hf Hcsv Hcol. split.
  - rewrite (run_clicked L w s _ Hb). simpl section_of.
    rewrite (tab_transactions_no_amount L w _ f df) by assumption. reflexivity.
  - rewrite initialised_lookup. unfold dict_get.
    destruct (s !! "transaction_frauds_count"); [reflexivity |].
    rewrite bool_decide_eq_true_2 by in_keys. reflexivity.
Qed.

Lemma csv_without_amount_column_witness :
  run (lib_csv (Ok ids_only)) txn_click ∅
  = (Ok tt, World (initialised ∅)
              [StWriteFrame (df_head ids_only); StWarning "CSV must have 'amount' column."])
  /\ initialised ∅ !! "transaction_frauds_count"
     = Some (dict_get ∅ "transaction_frauds_count").
Proof.
  refine (csv_without_amount_column (lib_csv (Ok ids_only)) txn_click csv_file ids_only ∅
            eq_refl eq_refl eq_refl _).
  apply (bool_decide_unpack _). vm_compute. exact I.
Defined.

(** ** Exceptions of library calls *)

Lemma tab_kyc_raises L w wd f1 f2 e :
  clicked w = Some CompareFaces -> id_face w = Some f1 -> live_face w = Some f2 ->
  verify_faces L f1 f2 = Raise e ->
  tab_kyc L w wd = (Ok tt, page wd [StError ("Face verification error: " +:+ exn_text e)]).
Proof.
  intros Hb H1 H2 Hraise. unfold tab_kyc, st_button.
  rewrite bool_decide_eq_true_2 by exact Hb. rewrite H1, H2.
  st_unfold. rewrite Hraise. reflexivity.
Qed.

Lemma tab_transactions_raises L w wd f e :
  clicked w = Some AnalyzeTransactions -> txn w = Some f ->
  read_csv L f = Raise e ->
  tab_transactions L w wd = (Ok tt, page wd [StError ("CSV read error: " +:+ exn_text e)]).
Proof.
  intros Hb Hf Hraise. unfold tab_transactions, st_button.
  rewrite bool_decide_eq_true_2 by exact Hb. rewrite Hf.
  st_unfold. rewrite Hraise. reflexivity.
Qed.

Lemma report_outcome L w s pg :
  clicked w = Some GeneratePDFReport ->
  report L w (World (initialised s) pg)
  = (Ok tt,
     World (initialised s)
       (pg ++ [match generate_report_pdf L (out_pdf w) (clock w) (report_data w (initialised s)) with
               | Ok _ => StDownloadButton "📥 Download Fraud Report (PDF)" (report_file_name w)
               | Raise e => StError ("PDF generation error: " +:+ exn_text e)
               end])).
Proof.
  intros Hb. unfold report, st_button.
  rewrite bool_decide_eq_true_2 by exact Hb.
  unfold bind at 1. rewrite read_report_data_spec.
  st_unfold.
  destruct (generate_report_pdf L _ _ _) as [[]|e]; reflexivity.
Qed.

(** The KYC and transactions tabs catch every exception raised under their
    [try]. *)
Lemma tab_kyc_returns L w wd : fst (tab_kyc L w wd) = Ok tt.
Proof.
  unfold tab_kyc. destruct (st_button w CompareFaces); [|reflexivity].
  destruct (id_face w) as [f1|]; [|reflexivity].
  destruct (live_face w) as [f2|]; [|reflexivity].
  st_unfold. destruct (verify_faces L f1 f2) as [res|e]; [|reflexivity].
  cbn [session_state rendered].
  rewrite lookup_insert_ne by discriminate. rewrite lookup_insert_eq.
  cbn [py_format session_state rendered]. rewrite lookup_insert_eq.
  destruct (truthy _); reflexivity.
Qed.

Lemma tab_transactions_returns L w wd : fst (tab_transactions L w wd) = Ok tt.
Proof.
  unfold tab_transactions. destruct (st_button w AnalyzeTransactions); [|reflexivity].
  destruct (txn w) as [f|]; [|reflexivity].
  st_unfold. destruct (read_csv L f) as [df|e]; [|reflexivity].
  destruct (negb (bool_decide ("amount" ∈ columns df))); [reflexivity |].
  destruct (df_column df "amount") as [amount|e]; [|reflexivity].
  destruct (series_mean L amount) as [m|e]; [|reflexivity].
  destruct (series_std L amount) as [sd|e]; [|reflexivity].
  destruct (series_gt amount _) as [mask|e]; [|reflexivity].
  destruct (negb (df_empty _)); reflexivity.
Qed.

(** C4. When the face verification of the KYC tab, the CSV parsing of the
    transactions tab or the PDF generation of the report section raises an
    exception, the run returns normally (nothing propagates), the page holds
    exactly the inline error naming the exception, and the session is the
    initialised one: no field the operation would have assigned has changed.
    Moreover a run with one of these three buttons pressed never ends in an
    exception. *)
Theorem library_exceptions_are_caught (L : Library) (w : widgets)
    (s : gmap string pyval) (e : exn) :
  (forall f1 f2,
      clicked w = Some CompareFaces -> id_face w = Some f1 -> live_face w = Some f2 ->
      verify_faces L f1 f2 = Raise e ->
      run L w s = (Ok tt, World (initialised s)
                            [StError ("Face verification error: " +:+ exn_text e)]))
  /\ (forall f,
      clicked w = Some AnalyzeTransactions -> txn w = Some f ->
      read_csv L f = Raise e ->
      run L w s = (Ok tt, World (initialised s)
                            [StError ("CSV read error: " +:+ exn_text e)]))
  /\ (clicked w = Some GeneratePDFReport ->
      generate_report_pdf L (out_pdf w) (clock w) (report_data w (initialised s)) = Raise e ->
      run L w s = (Ok tt, World (initialised s)
                            [StError ("PDF generation error: " +:+ exn_text e)]))
  /\ (clicked w = Some CompareFaces \/ clicked w = Some AnalyzeTransactions
      \/ clicked w = Some GeneratePDFReport ->
      fst (run L w s) = Ok tt).
Proof.
  repeat split.
  - intros f1 f2 Hb H1 H2 Hraise. rewrite (run_clicked L w s _ Hb). simpl section_of.
    rewrite (tab_kyc_raises L w _ f1 f2 e) by assumption. reflexivity.
  - intros f Hb Hf Hraise. rewrite (run_clicked L w s _ Hb). simpl section_of.
    rewrite (tab_transactions_raises L w _ f e) by assumption. reflexivity.
  - intros Hb Hraise. rewrite (run_clicked L w s _ Hb). simpl section_of.
    rewrite report_outcome by exact Hb. rewrite Hraise. reflexivity.
  - intros [Hb|[Hb|Hb]]; rewrite (run_clicked L w s _ Hb); simpl section_of.
    + apply tab_kyc_returns.
    + apply tab_transactions_returns.
    + rewrite report_outcome by exact Hb. reflexivity.
Qed.

Lemma library_exceptions_are_caught_witness :
  run (lib_faces (Raise boom)) faces_click ∅
  = (Ok tt, World (initialised ∅) [StError "Face verification error: boom"])
  /\ run (lib_csv (Raise boom)) txn_click ∅
     = (Ok tt, World (initialised ∅) [StError "CSV read error: boom"])
  /\ run (lib_save (Raise boom)) report_click ∅
     = (Ok tt, World (initialised ∅) [StError "PDF generation error: boom"]).
Proof.
  split; [|split].
  - exact (proj1 (library_exceptions_are_caught (lib_faces (Raise boom)) faces_click ∅ boom)
             photo photo eq_refl eq_refl eq_refl eq_refl).
  - exact (proj1 (proj2 (library_exceptions_are_caught (lib_csv (Raise boom)) txn_click ∅ boom))
             csv_file eq_refl eq_refl eq_refl).
  - exact (proj1 (proj2 (proj2
             (library_exceptions_are_caught (lib_save (Raise boom)) report_click ∅ boom)))
             eq_refl eq_refl).
Defined.

(** ** The outlier rule of the transactions tab *)

Lemma add_nan_r (x : float) : (x + nan)%float = nan.
Proof.
  apply Prim2SF_inj. rewrite FloatAxioms.add_spec.
  change (Prim2SF nan) with S754_nan.
  destruct (Prim2SF x) as [| |  |]; reflexivity.
Qed.

Lemma ltb_nan_l (x : float) : (nan <? x)%float = false.
Proof.
  rewrite FloatAxioms.ltb_spec. change (Prim2SF nan) with S754_nan. reflexivity.
Qed.

Lemma to_numeric_cells s xs :
  to_numeric s = Ok xs -> s = map Num xs.
Proof.
  revert xs. induction s as [|c s IH]; intros xs H; simpl in H.
  - injection H as <-. reflexivity.
  - destruct c as [x|t]; [|discriminate].
    destruct (to_numeric s) as [ys|e]; simpl in H; [|discriminate].
    injection H as <-. simpl. f_equal. apply IH. reflexivity.
Qed.

Lemma amounts_rows df xs :
  amounts df = Ok xs -> map (amount_of df) (rows df) = map Num xs.
Proof.
  unfold amounts, df_column, amount_of.
  destruct (index_of "amount" (columns df)) as [i|]; simpl; [|discriminate].
  apply to_numeric_cells.
Qed.

Lemma amounts_column df xs :
  amounts df = Ok xs -> df_column df "amount" = Ok (map Num xs).
Proof.
  intros H. pose proof (amounts_rows df xs H) as Hrows.
  unfold amounts, df_column, amount_of in *.
  destruct (index_of "amount" (columns df)) as [i|]; simpl in *; [|discriminate].
  rewrite Hrows. reflexivity.
Qed.

Lemma to_numeric_map_Num xs : to_numeric (map Num xs) = Ok xs.
Proof. induction xs as [|x xs IH]; simpl; [|rewrite IH]; reflexivity. Qed.

Lemma index_of_elem key l : is_Some (index_of key l) <-> key ∈ l.
Proof.
  induction l as [|k l IH]; simpl.
  - split; [intros [? [=]] | intros H; apply elem_of_nil in H; contradiction].
  - destruct (String.eqb key k) eqn:E.
    + apply String.eqb_eq in E as ->. split; [intros _; left | eauto].
    + apply String.eqb_neq in E. rewrite elem_of_cons, <- IH.
      destruct (index_of key l); simpl; split; eauto.
      intros [?|[? [=]]]; congruence.
Qed.

Lemma amounts_has_column df xs : amounts df = Ok xs -> "amount" ∈ columns df.
Proof.
  unfold amounts, df_column. intros H. apply index_of_elem.
  destruct (index_of "amount" (columns df)); [eauto | discriminate].
Qed.

(** [df[df["amount"] > threshold]] keeps exactly the rows whose amount
    exceeds the threshold. *)
Lemma select_exceeds df threshold rs xs :
  map (amount_of df) rs = map Num xs ->
  select (map (fun x => (threshold <? x)%float) xs) rs = List.filter (exceeds df threshold) rs.
Proof.
  revert xs. induction rs as [|r rs IH]; intros [|x xs] H;
    cbn [select List.filter map] in *; try discriminate.
  - reflexivity.
  - injection H as Hr Hrs. unfold exceeds at 1. rewrite Hr.
    rewrite (IH xs Hrs). destruct (threshold <? x)%float; reflexivity.
Qed.

Lemma tab_transactions_numeric L w wd f df xs :
  clicked w = Some AnalyzeTransactions -> txn w = Some f ->
  read_csv L f = Ok df -> amounts df = Ok xs ->
  let threshold := (mean L xs + 3 * std L xs)%float in
  let frauds := df_select df (map (fun x => (threshold <? x)%float) xs) in
  tab_transactions L w wd
  = (Ok tt,
     World (<["transaction_frauds_count" := VInt (df_len frauds)]> (session_state wd))
           (rendered wd
            ++ [StWriteFrame (df_head df); StMetric "Potential Fraud Transactions" (df_len frauds)]
            ++ (if df_empty frauds then [] else [StDataframe frauds]))).
Proof.
  intros Hb Hf Hcsv Hxs threshold frauds.
  unfold tab_transactions, st_button.
  rewrite bool_decide_eq_true_2 by exact Hb. rewrite Hf.
  st_unfold. rewrite Hcsv. cbn [session_state rendered].
  rewrite bool_decide_eq_true_2 by (eapply amounts_has_column; exact Hxs).
  cbn [negb]. rewrite (amounts_column df xs Hxs).
  unfold series_mean, series_std, series_gt. rewrite to_numeric_map_Num.
  cbn [rbind session_state rendered]. fold threshold. fold frauds.
  destruct (df_empty frauds); cbn [negb session_state rendered];
    repeat rewrite <- app_assoc; reflexivity.
Qed.

Lemma run_transactions_numeric L w f df xs s :
  clicked w = Some AnalyzeTransactions -> txn w = Some f ->
  read_csv L f = Ok df -> amounts df = Ok xs ->
  let threshold := (mean L xs + 3 * std L xs)%float in
  let flagged := List.filter (exceeds df threshold) (rows df) in
  let frauds := {| columns := columns df; rows := flagged |} in
  run L w s
  = (Ok tt,
     World (<["transaction_frauds_count" := VInt (Z.of_nat (length flagged))]> (initialised s))
           ([StWriteFrame (df_head df);
             StMetric "Potential Fraud Transactions" (Z.of_nat (length flagged))]
            ++ (if df_empty frauds then [] else [StDataframe frauds]))).
Proof.
  intros Hb Hf Hcsv Hxs threshold flagged frauds.
  rewrite (run_clicked L w s _ Hb). simpl section_of.
  rewrite (tab_transactions_numeric L w _ f df xs Hb Hf Hcsv Hxs).
  cbn [session_state rendered app]. unfold df_select, df_len. cbn [rows columns].
  rewrite (select_exceeds df _ (rows df) xs (amounts_rows df xs Hxs)).
  reflexivity.
Qed.

(** C1 (amended). When the CSV parses and its 'amount' column is numeric, with
    values [xs], the threshold is [mean L xs + 3 * std L xs], with the mean and
    the deviation the library computes; the rows flagged (the
    rows of the table of frauds) are exactly the rows whose amount is strictly
    greater than the threshold, and the run stores their number as
    transaction_frauds_count and shows it as the metric. *)
Theorem outlier_rows_flagged_and_counted (L : Library) (w : widgets) (f : uploaded_file)
    (df : DataFrame) (xs : list float) (s : gmap string pyval) :
  clicked w = Some AnalyzeTransactions ->
  txn w = Some f ->
  read_csv L f = Ok df ->
  amounts df = Ok xs ->
  let threshold := (mean L xs + 3 * std L xs)%float in
  let flagged := List.filter (exceeds df threshold) (rows df) in
  let frauds := {| columns := columns df; rows := flagged |} in
  run L w s
  = (Ok tt,
     World (<["transaction_frauds_count" := VInt (Z.of_nat (length flagged))]> (initialised s))
           ([StWriteFrame (df_head df);
             StMetric "Potential Fraud Transactions" (Z.of_nat (length flagged))]
            ++ (if df_empty frauds then [] else [StDataframe frauds])))
  /\ (forall row, In row flagged <->
                  In row (rows df)
                  /\ exists x, amount_of df row = Num x /\ (threshold <? x)%float = true)
  /\ map (amount_of df) (rows df) = map Num xs.
Proof.
  intros Hb Hf Hcsv Hxs threshold flagged frauds. split; [|split].
  - apply (run_transactions_numeric L w f df xs s); assumption.
  - intros row. unfold flagged. rewrite filter_In. unfold exceeds.
    split; intros [Hin H]; split; try exact Hin.
    + destruct (amount_of df row) as [x|t]; [eauto | discriminate].
    + destruct H as [x [-> Hx]]. exact Hx.
  - apply amounts_rows. exact Hxs.
Qed.

Lemma outlier_rows_flagged_and_counted_witness :
  session_state (snd (run (lib_csv (Ok payments)) txn_click ∅)) !! "transaction_frauds_count"
  = Some (VInt 1)
  /\ rendered (snd (run (lib_csv (Ok payments)) txn_click ∅))
     = [StWriteFrame (df_head payments); StMetric "Potential Fraud Transactions" 1;
        StDataframe {| columns := ["id"; "amount"]; rows := [[Num 12; Num 1000]] |}].
Proof.
  destruct (outlier_rows_flagged_and_counted (lib_csv (Ok payments)) txn_click csv_file
              payments payment_amounts ∅ eq_refl eq_refl eq_refl eq_refl) as [Hrun _].
  rewrite Hrun. split; reflexivity.
Defined.

(** C1 as stated fails on a CSV whose 'amount' column holds text: the
    reductions raise, the handler of line 261 shows the error, and no count is
    stored. *)
Lemma text_amount_column_stores_no_count :
  "amount" ∈ columns text_amounts
  /\ session_state (snd (run (lib_csv (Ok text_amounts)) txn_click ∅))
       !! "transaction_frauds_count" = Some VNone
  /\ (forall n, session_state (snd (run (lib_csv (Ok text_amounts)) txn_click ∅))
                  !! "transaction_frauds_count" <> Some (VInt n))
  /\ exists msg,
       rendered (snd (run (lib_csv (Ok text_amounts)) txn_click ∅))
       = [StWriteFrame (df_head text_amounts); StError ("CSV read error: " +:+ msg)].
Proof.
  split; [|split; [|split]].
  - apply (bool_decide_unpack _). vm_compute. exact I.
  - reflexivity.
  - intros n. vm_compute. discriminate.
  - eexists. reflexivity.
Qed.

(** ** Fewer than two rows *)

Lemma std_short L xs : (length xs < 2)%nat -> std L xs = nan.
Proof.
  intros Hlen. unfold std.
  assert (Hle : (length (notna xs) <= 1)%nat).
  { pose proof (List.filter_length_le (fun x => negb (PrimFloat.is_nan x)) xs) as H.
    unfold notna. lia. }
  apply Nat.leb_le in Hle. rewrite Hle. reflexivity.
Qed.

Lemma threshold_nan m : (m + 3 * nan)%float = nan.
Proof. change (3 * nan)%float with nan. apply add_nan_r. Qed.

Lemma exceeds_nan df row : exceeds df nan row = false.
Proof.
  unfold exceeds. destruct (amount_of df row) as [x|t]; [apply ltb_nan_l | reflexivity].
Qed.

Lemma filter_none {A} (p : A -> bool) l :
  (forall x, p x = false) -> List.filter p l = [].
Proof.
  intros Hp. induction l as [|x l IH]; simpl; [reflexivity |].
  rewrite Hp. exact IH.
Qed.

(** C10 (amended). When the CSV parses and its 'amount' column is numeric
    with fewer than two rows, the sample standard deviation is NaN, so is the
    threshold, no row exceeds it, and the run stores 0 as
    transaction_frauds_count. *)
Theorem fewer_than_two_rows_flag_nothing (L : Library) (w : widgets) (f : uploaded_file)
    (df : DataFrame) (xs : list float) (s : gmap string pyval) :
  clicked w = Some AnalyzeTransactions ->
  txn w = Some f ->
  read_csv L f = Ok df ->
  amounts df = Ok xs ->
  (length (rows df) < 2)%nat ->
  std L xs = nan
  /\ (mean L xs + 3 * std L xs)%float = nan
  /\ (forall row, exceeds df (mean L xs + 3 * std L xs)%float row = false)
  /\ run L w s
     = (Ok tt,
        World (<["transaction_frauds_count" := VInt 0]> (initialised s))
              [StWriteFrame (df_head df); StMetric "Potential Fraud Transactions" 0]).
Proof.
  intros Hb Hf Hcsv Hxs Hlen.
  assert (Hstd : std L xs = nan).
  { apply std_short. pose proof (amounts_rows df xs Hxs) as H.
    apply (f_equal (@length _)) in H. rewrite !length_map in H. lia. }
  assert (Hthr : (mean L xs + 3 * std L xs)%float = nan).
  { rewrite Hstd. apply threshold_nan. }
  repeat split; try assumption.
  - intros row. rewrite Hthr. apply exceeds_nan.
  - rewrite (run_transactions_numeric L w f df xs s Hb Hf Hcsv Hxs).
    rewrite Hthr. rewrite (filter_none _ _ (exceeds_nan df)).
    cbn [length Z.of_nat]. unfold df_empty. cbn [rows columns].
    destruct (columns df); reflexivity.
Qed.

Lemma fewer_than_two_rows_flag_nothing_witness :
  std (lib_csv (Ok one_amount)) [250%float] = nan
  /\ run (lib_csv (Ok one_amount)) txn_click ∅
     = (Ok tt,
        World (<["transaction_frauds_count" := VInt 0]> (initialised ∅))
              [StWriteFrame (df_head one_amount); StMetric "Potential Fraud Transactions" 0]).
Proof.
  assert (Hlen : (length (rows one_amount) < 2)%nat) by (simpl; lia).
  destruct (fewer_than_two_rows_flag_nothing (lib_csv (Ok one_amount)) txn_click csv_file
              one_amount [250%float] ∅ eq_refl eq_refl eq_refl eq_refl Hlen)
    as (Hstd & _ & _ & Hrun).
  split; assumption.
Defined.

(** C10 as stated fails on a one-row CSV whose amount is text: no standard
    deviation is computed and transaction_frauds_count is not set. *)
Lemma single_text_amount_sets_no_count :
  "amount" ∈ columns one_text_amount
  /\ (length (rows one_text_amount) < 2)%nat
  /\ series_std (lib_csv (Ok one_text_amount)) [Text "12 USD"] = Raise (Exception "TypeError" "Could not convert string '12 USD' to numeric")
  /\ session_state (snd (run (lib_csv (Ok one_text_amount)) txn_click ∅))
       !! "transaction_frauds_count" = Some VNone
  /\ session_state (snd (run (lib_csv (Ok one_text_amount)) txn_click ∅))
       !! "transaction_frauds_count" <> Some (VInt 0).
Proof.
  split; [|split; [|split; [|split]]].
  - apply (bool_decide_unpack _). vm_compute. exact I.
  - simpl. lia.
  - reflexivity.
  - reflexivity.
  - vm_compute. discriminate.
Qed.

(** ** [load_image] *)

(** C8. For an upload whose lower-cased name ends in ".pdf", [load_image]
    is decided by the conversion alone: it returns the first page of the
    converted document and drops the pages after it (and raises when the
    conversion raises or yields no page).  It returns None exactly when its
    input is None. *)
Theorem load_image_first_page_only (L : Library) :
  (forall f,
      endswith (lower (name f)) ".pdf" = true ->
      load_image L (Some f)
      = match convert_from_bytes L (content f) with
        | Ok (page :: _) => Ok (Some page)
        | Ok [] => Raise (Exception "IndexError" "list index out of range")
        | Raise e => Raise e
        end)
  /\ (forall f page later,
      endswith (lower (name f)) ".pdf" = true ->
      convert_from_bytes L (content f) = Ok (page :: later) ->
      load_image L (Some f) = Ok (Some page))
  /\ (forall uploaded, load_image L uploaded = Ok None <-> uploaded = None).
Proof.
  assert (Hpdf : forall f, endswith (lower (name f)) ".pdf" = true ->
            load_image L (Some f)
            = match convert_from_bytes L (content f) with
              | Ok (page :: _) => Ok (Some page)
              | Ok [] => Raise (Exception "IndexError" "list index out of range")
              | Raise e => Raise e
              end).
  { intros f Hname. unfold load_image, load_file. rewrite Hname.
    destruct (convert_from_bytes L (content f)) as [[|page later]|e]; reflexivity. }
  split; [exact Hpdf | split].
  - intros f page later Hname Hconv. rewrite (Hpdf f Hname), Hconv. reflexivity.
  - intros [f|]; split; try reflexivity; try discriminate.
    unfold load_image. destruct (load_file L f); discriminate.
Qed.

Lemma load_image_first_page_only_witness :
  load_image (lib_pages (Ok two_pages)) (Some scan) = Ok (Some [Byte.x01]).
Proof.
  exact (proj1 (proj2 (load_image_first_page_only (lib_pages (Ok two_pages))))
           scan [Byte.x01] [[Byte.x02]] eq_refl eq_refl).
Defined.

(** ** The PDF report *)

Lemma report_data_get w s :
  dict_get (report_data w s) "customer_name" = VStr (cust_name w)
  /\ dict_get (report_data w s) "reference" = VStr (ref w)
  /\ report_data w s !! "remarks" = Some (VStr (remarks w))
  /\ report_sections (report_data w s)
     = map (fun '(title, key) => (title, dict_get s key)) section_fields.
Proof. repeat split; vm_compute; reflexivity. Qed.

Lemma report_ops_session L w s :
  report_ops L (clock w) (report_data w s)
  = Ok ([ SetFont "Helvetica-Bold" 16;
          DrawString 20 277 "Banking Fraud Guard - Fraud Detection Report";
          SetFont "Helvetica" 10;
          DrawString 20 271 ("Generated: " +:+ clock w) ]
        ++ (if String.eqb (cust_name w) "" then []
            else [DrawString 20 265 ("Customer: " +:+ cust_name w)])
        ++ (if String.eqb (ref w) "" then []
            else [DrawString 20 259 ("Ref: " +:+ ref w)])
        ++ [ SetFont "Helvetica-Bold" 12; DrawString 20 249 "Document Forgery";
             SetFont "Helvetica" 10;
             DrawString 20 243 (value_line L (dict_get s "forgery_score"));
             SetFont "Helvetica-Bold" 12; DrawString 20 235 "Signature Verification";
             SetFont "Helvetica" 10;
             DrawString 20 229 (value_line L (dict_get s "signature_score"));
             SetFont "Helvetica-Bold" 12; DrawString 20 221 "Aadhaar OCR";
             SetFont "Helvetica" 10;
             DrawString 20 215 (value_line L (dict_get s "aadhaar_text"));
             SetFont "Helvetica-Bold" 12; DrawString 20 207 "PAN OCR";
             SetFont "Helvetica" 10;
             DrawString 20 201 (value_line L (dict_get s "pan_text"));
             SetFont "Helvetica-Bold" 12; DrawString 20 193 "KYC Face Match";
             SetFont "Helvetica" 10;
             DrawString 20 187 (value_line L (dict_get s "face_distance"));
             SetFont "Helvetica-Bold" 12; DrawString 20 179 "Transaction Summary";
             SetFont "Helvetica" 10;
             DrawString 20 173 (value_line L (dict_get s "transaction_frauds_count"));
             SetFont "Helvetica-Bold" 12; DrawString 20 165 "Remarks";
             SetFont "Helvetica" 10 ]
        ++ draw_lines 159 (remark_lines (remarks w))
        ++ [ShowPage]).
Proof.
  unfold report_ops.
  destruct (report_data_get w s) as (Hc & Hr & Hrem & Hsec).
  rewrite Hc, Hr, Hrem, Hsec. cbn [truthy py_str].
  destruct (String.eqb (cust_name w) ""), (String.eqb (ref w) ""); reflexivity.
Qed.

Lemma drawn_texts_app a b : drawn_texts (a ++ b) = drawn_texts a ++ drawn_texts b.
Proof.
  induction a as [|[face size|x y text|] a IH]; simpl; [reflexivity | | f_equal |]; exact IH.
Qed.

Lemma drawn_texts_lines y lines : drawn_texts (draw_lines y lines) = lines.
Proof.
  revert y. induction lines as [|line lines IH]; intros y; simpl; [reflexivity |].
  f_equal. apply IH.
Qed.

(** C7. For every session, the report drawn from it has one fixed layout:
    heading and date, the optional customer and reference lines, then the
    six result sections in the order Document Forgery, Signature
    Verification, Aadhaar OCR, PAN OCR, KYC Face Match, Transaction Summary
    at fixed descending heights, each title followed 6 mm lower by the line of
    its value, then Remarks and the remark lines.  A section whose value is
    None shows "Not analyzed".  These operations are what is saved. *)
Theorem report_has_fixed_layout (L : Library) (w : widgets) (s : gmap string pyval) :
  exists ops,
    report_ops L (clock w) (report_data w s) = Ok ops
    /\ generate_report_pdf L (out_pdf w) (clock w) (report_data w s)
       = canvas_save L (out_pdf w) ops
    /\ drawn_texts ops
       = [ "Banking Fraud Guard - Fraud Detection Report"; "Generated: " +:+ clock w ]
         ++ (if String.eqb (cust_name w) "" then [] else ["Customer: " +:+ cust_name w])
         ++ (if String.eqb (ref w) "" then [] else ["Ref: " +:+ ref w])
         ++ [ "Document Forgery"; value_line L (dict_get s "forgery_score");
              "Signature Verification"; value_line L (dict_get s "signature_score");
              "Aadhaar OCR"; value_line L (dict_get s "aadhaar_text");
              "PAN OCR"; value_line L (dict_get s "pan_text");
              "KYC Face Match"; value_line L (dict_get s "face_distance");
              "Transaction Summary"; value_line L (dict_get s "transaction_frauds_count");
              "Remarks" ]
         ++ remark_lines (remarks w)
    /\ Forall (fun '(title, key, y) =>
                 In (DrawString 20 y title) ops
                 /\ In (DrawString 20 (y - 6) (value_line L (dict_get s key))) ops
                 /\ (dict_get s key = VNone -> In (DrawString 20 (y - 6) "Not analyzed") ops))
         section_heights
    /\ In (DrawString 20 165 "Remarks") ops.
Proof.
  eexists. split; [apply report_ops_session | split; [|split; [|split]]].
  - unfold generate_report_pdf. rewrite report_ops_session. reflexivity.
  - rewrite !drawn_texts_app, drawn_texts_lines.
    destruct (String.eqb (cust_name w) ""), (String.eqb (ref w) "");
      cbn [drawn_texts]; rewrite app_nil_r; reflexivity.
  - assert (Hval : forall v, v = VNone -> value_line L v = "Not analyzed")
      by (intros v ->; reflexivity).
    unfold section_heights.
    repeat (constructor; [split; [|split]; [| |intros HN; rewrite <- (Hval _ HN)];
      (apply in_or_app; right; apply in_or_app; right; apply in_or_app; right;
       apply in_or_app; left; simpl; tauto) |]).
    constructor.
  - apply in_or_app; right; apply in_or_app; right; apply in_or_app; right.
    apply in_or_app; left. simpl. tauto.
Qed.

(** *** Lines of string values *)

Lemma Ok_inj {A} (a b : A) : Ok a = Ok b -> a = b.
Proof. intros H. injection H as H. exact H. Qed.

Lemma length_map_chars f s : String.length (map_chars f s) = String.length s.
Proof. induction s as [|c s IH]; simpl; [|rewrite IH]; reflexivity. Qed.

Lemma get_map_chars f s i : String.get i (map_chars f s) = option_map f (String.get i s).
Proof.
  revert i. induction s as [|c s IH]; intros i; simpl; [reflexivity |].
  destruct i; [reflexivity | apply IH].
Qed.

Lemma length_prefix n s : String.length (substring 0 n s) = Nat.min n (String.length s).
Proof.
  revert s. induction n as [|n IH]; intros [|c s]; simpl; try reflexivity.
  rewrite IH. reflexivity.
Qed.

Lemma length_append_string a b :
  String.length (a +:+ b) = (String.length a + String.length b)%nat.
Proof. induction a as [|c a IH]; simpl; [|rewrite IH]; reflexivity. Qed.

Lemma get_append_l a b i :
  (i < String.length a)%nat -> String.get i (a +:+ b) = String.get i a.
Proof.
  revert i. induction a as [|c a IH]; intros i Hi; simpl in *; [lia |].
  destruct i; [reflexivity | apply IH; lia].
Qed.

Lemma substring_whole b : substring 0 (String.length b) b = b.
Proof. induction b as [|c b IH]; simpl; [|rewrite IH]; reflexivity. Qed.

Lemma substring_append_r a b :
  substring (String.length a) (String.length b) (a +:+ b) = b.
Proof.
  induction a as [|c a IH]; simpl; [apply substring_whole | exact IH].
Qed.

Lemma sections_drawn L w s ops :
  report_ops L (clock w) (report_data w s) = Ok ops ->
  Forall (fun '(title, key, y) =>
            In (DrawString 20 y title) ops
            /\ In (DrawString 20 (y - 6) (value_line L (dict_get s key))) ops)
    section_heights.
Proof.
  rewrite report_ops_session. intros Hops. apply Ok_inj in Hops. subst ops.
  unfold section_heights.
  repeat (constructor; [split;
    (apply in_or_app; right; apply in_or_app; right; apply in_or_app; right;
     apply in_or_app; left; simpl; tauto) |]).
  constructor.
Qed.

Lemma section_has_height title key :
  (title, key) ∈ section_fields -> exists y, In (title, key, y) section_heights.
Proof.
  intros Hin. unfold section_fields in Hin.
  repeat (apply elem_of_cons in Hin as [Hin|Hin];
          [injection Hin as -> ->; eexists; simpl; tauto |]).
  apply elem_of_nil in Hin. contradiction.
Qed.

Lemma section_line_drawn L w s title key :
  (title, key) ∈ section_fields ->
  exists ops y,
    report_ops L (clock w) (report_data w s) = Ok ops
    /\ In (DrawString 20 y title) ops
    /\ In (DrawString 20 (y - 6) (value_line L (dict_get s key))) ops.
Proof.
  intros Hin. destruct (section_has_height title key Hin) as [y Hy].
  eexists. exists y. split; [apply report_ops_session |].
  pose proof (sections_drawn L w s _ (report_ops_session L w s)) as Hall.
  rewrite List.Forall_forall in Hall. apply (Hall _ Hy).
Qed.

(** C9. In the report, the line of every session field that holds a string
    (the empty string included) is the first 200 characters of the string with
    each newline replaced by a space, followed by "...": the three dots are
    there whatever the length of the string. *)
Theorem string_field_cut_and_dotted (L : Library) (w : widgets) (s : gmap string pyval)
    (title key text : string) :
  (title, key) ∈ section_fields ->
  dict_get s key = VStr text ->
  let kept := Nat.min 200 (String.length text) in
  let line := replace_char newline " " (slice 0 200 text) +:+ "..." in
  (exists ops y,
      report_ops L (clock w) (report_data w s) = Ok ops
      /\ In (DrawString 20 y title) ops
      /\ In (DrawString 20 (y - 6) line) ops)
  /\ String.length line = (kept + 3)%nat
  /\ (forall i, (i < kept)%nat ->
        String.get i line
        = option_map (fun c => if Ascii.eqb c newline then " "%char else c) (String.get i text))
  /\ substring kept 3 line = "...".
Proof.
  intros Hin Hval kept line.
  assert (Hlen : String.length (replace_char newline " " (slice 0 200 text)) = kept).
  { unfold replace_char, slice. rewrite length_map_chars. apply length_prefix. }
  split; [|split; [|split]].
  - destruct (section_line_drawn L w s title key Hin) as (ops & y & Hops & Ht & Hv).
    exists ops, y. rewrite Hval in Hv. repeat split; assumption.
  - unfold line. rewrite length_append_string, Hlen. reflexivity.
  - intros i Hi. unfold line. rewrite get_append_l by (rewrite Hlen; exact Hi).
    unfold replace_char, slice. rewrite get_map_chars. f_equal.
    rewrite (substring_correct1 text 0 200 i) by (unfold kept in Hi; lia).
    rewrite Nat.add_0_r. reflexivity.
  - unfold line. rewrite <- Hlen.
    apply (substring_append_r (replace_char newline " " (slice 0 200 text)) "...").
Qed.

Lemma string_field_cut_and_dotted_witness :
  exists ops y,
    report_ops quiet_library (clock no_widgets) (report_data no_widgets ocr_session) = Ok ops
    /\ In (DrawString 20 y "Aadhaar OCR") ops
    /\ In (DrawString 20 (y - 6) "UID 1234 5678 9012...") ops.
Proof.
  assert (Hin : ("Aadhaar OCR", "aadhaar_text") ∈ section_fields).
  { apply (bool_decide_unpack _). vm_compute. exact I. }
  exact (proj1 (string_field_cut_and_dotted quiet_library no_widgets ocr_session
                  "Aadhaar OCR" "aadhaar_text" two_line_text Hin eq_refl)).
Defined.

(** ** Session fields and their tabs *)

(** A tab run on any session is the tab run on the empty session, laid over
    that session and appended to the page: it reads nothing it did not write
    itself. *)
Lemma section_overlay L b w wd :
  b <> GeneratePDFReport ->
  section_of L b w wd
  = (fst (section_of L b w (World ∅ [])),
     World (session_state (snd (section_of L b w (World ∅ []))) ∪ session_state wd)
           (rendered wd ++ rendered (snd (section_of L b w (World ∅ []))))).
Proof.
  intros Hb. destruct wd as [S R].
  destruct b; try congruence; clear Hb; unfold_sections; crush_section;
    rewrite <- ?insert_union_l, (left_id_L ∅ (∪)), ?app_nil_r, <- ?app_assoc;
    reflexivity.
Qed.

(** Whatever a section assigns is one of its own fields, assigned by a run
    of that section which had its uploads and returned normally; the value
    assigned is never None. *)
Lemma section_assigns L b w k v :
  session_state (snd (section_of L b w (World ∅ []))) !! k = Some v ->
  clicked w = Some b
  /\ k ∈ fields_of b
  /\ fst (section_of L b w (World ∅ [])) = Ok tt
  /\ (None ∉ required_uploads b w)
  /\ v <> VNone.
Proof.
  destruct b; unfold_sections; crush_section; intros Hk;
    rewrite ?lookup_insert in Hk; repeat case_decide;
    rewrite ?lookup_empty in Hk; try discriminate;
    subst k; injection Hk as <-;
    (split; [match goal with
             | H : st_button _ _ = true |- _ =>
                 unfold st_button in H; apply bool_decide_eq_true in H; exact H
             end |]);
    (split; [apply (bool_decide_unpack _); vm_compute; exact I |]);
    (split; [reflexivity |]);
    (split; [|discriminate]);
    cbn [required_uploads];
    repeat match goal with H : _ w = Some _ |- _ => rewrite H; clear H end;
    intros Hin;
    repeat (apply elem_of_cons in Hin as [Hin|Hin]; [discriminate |]);
    apply elem_of_nil in Hin; exact Hin.
Qed.

Lemma report_keeps_session L w wd :
  session_state (snd (report L w wd)) = session_state wd.
Proof.
  destruct wd as [S R]. unfold_sections. crush_section; reflexivity.
Qed.


Lemma dict_get_initialised s k : dict_get (initialised s) k = dict_get s k.
Proof.
  unfold dict_get. rewrite initialised_lookup.
  destruct (s !! k); [reflexivity |].
  destruct (bool_decide (k ∈ session_keys)); reflexivity.
Qed.

(** The session a run leaves: what the pressed section assigned, laid over
    the initialised session. *)
Lemma run_session L w s :
  session_state (snd (run L w s))
  = match clicked w with
    | Some b => session_state (snd (section_of L b w (World ∅ []))) ∪ initialised s
    | None => initialised s
    end.
Proof.
  destruct (clicked w) as [b|] eqn:Hb.
  - rewrite (run_clicked L w s b Hb).
    destruct (decide (b = GeneratePDFReport)) as [->|Hne].
    + simpl section_of. rewrite !report_keeps_session. cbn [session_state].
      rewrite (left_id_L ∅ (∪)). reflexivity.
    + rewrite (section_overlay L b w _ Hne). reflexivity.
  - rewrite (run_idle L w s Hb). reflexivity.
Qed.

Lemma run_outcome L w s b :
  clicked w = Some b -> b <> GeneratePDFReport ->
  fst (run L w s) = fst (section_of L b w (World ∅ [])).
Proof.
  intros Hb Hne. rewrite (run_clicked L w s b Hb).
  rewrite (section_overlay L b w _ Hne). reflexivity.
Qed.

(** A run that assigns a field is a run of the field's own tab, with its
    uploads present, that returns normally. *)
Lemma run_assigns L w s b k v :
  clicked w = Some b ->
  session_state (snd (section_of L b w (World ∅ []))) !! k = Some v ->
  k ∈ fields_of b
  /\ fst (run L w s) = Ok tt
  /\ (None ∉ required_uploads b w)
  /\ dict_get (session_state (snd (run L w s))) k = v
  /\ v <> VNone.
Proof.
  intros Hb E.
  pose proof (section_assigns L b w k v E) as (_ & Hin & Hok & Hup & Hv).
  assert (Hne : b <> GeneratePDFReport).
  { intros ->. simpl in Hin. apply elem_of_nil in Hin. exact Hin. }
  repeat split; try assumption.
  - rewrite (run_outcome L w s b Hb Hne). exact Hok.
  - unfold dict_get. rewrite run_session, Hb.
    rewrite (lookup_union_Some_l _ _ _ _ E). reflexivity.
Qed.

(** A run that leaves a field untouched by its section keeps its value. *)
Lemma run_keeps L w s k :
  match clicked w with
  | Some b => session_state (snd (section_of L b w (World ∅ []))) !! k = None
  | None => True
  end ->
  dict_get (session_state (snd (run L w s))) k = dict_get s k.
Proof.
  intros E. unfold dict_get at 1. rewrite run_session.
  destruct (clicked w) as [b|].
  - rewrite lookup_union_r by exact E. apply dict_get_initialised.
  - apply dict_get_initialised.
Qed.


Lemma runs_snoc L ws w s :
  runs L (ws ++ [w]) s = session_state (snd (run L w (runs L ws s))).
Proof. unfold runs. rewrite fold_left_app. reflexivity. Qed.

(** Along any sequence of interactions that starts with an empty session, a
    field is None unless some earlier run of its own tab assigned it. *)
Lemma field_none_until_assigned L ws k :
  dict_get (runs L ws ∅) k = VNone
  \/ exists ws1 w ws2 b,
       ws = ws1 ++ w :: ws2
       /\ clicked w = Some b /\ k ∈ fields_of b
       /\ fst (run L w (runs L ws1 ∅)) = Ok tt
       /\ (None ∉ required_uploads b w)
       /\ dict_get (runs L (ws1 ++ [w]) ∅) k <> VNone.
Proof.
  induction ws as [|w ws IH] using rev_ind.
  - left. reflexivity.
  - assert (Hkeep : dict_get (runs L (ws ++ [w]) ∅) k = dict_get (runs L ws ∅) k ->
             dict_get (runs L (ws ++ [w]) ∅) k = VNone
             \/ exists ws1 w0 ws2 b,
                  ws ++ [w] = ws1 ++ w0 :: ws2
                  /\ clicked w0 = Some b /\ k ∈ fields_of b
                  /\ fst (run L w0 (runs L ws1 ∅)) = Ok tt
                  /\ (None ∉ required_uploads b w0)
                  /\ dict_get (runs L (ws1 ++ [w0]) ∅) k <> VNone).
    { intros Hsame. destruct IH as [IH|(ws1 & w0 & ws2 & b0 & -> & IH)].
      - left. rewrite Hsame. exact IH.
      - right. exists ws1, w0, (ws2 ++ [w]), b0.
        split; [rewrite <- app_assoc; reflexivity | exact IH]. }
    destruct (clicked w) as [b|] eqn:Hb.
    + destruct (session_state (snd (section_of L b w (World ∅ []))) !! k) as [v|] eqn:E.
      * right.
        destruct (run_assigns L w (runs L ws ∅) b k v Hb E) as (H2 & H3 & H4 & H5 & H6).
        exists ws, w, [], b. rewrite runs_snoc, H5. repeat split; assumption.
      * apply Hkeep. rewrite runs_snoc. apply run_keeps. rewrite Hb. exact E.
    + apply Hkeep. rewrite runs_snoc. apply run_keeps. rewrite Hb. exact I.
Qed.




(** ** The verdict of the forgery tab *)

(** Whatever score the similarity measure returns above 0.9, the forgery tab
    stores it as forgery_score and reports that no forgery was detected. *)
Lemma high_similarity_reports_no_forgery (L : Library) (w : widgets) (f1 f2 : uploaded_file)
    (img1 img2 : image L) (s : gmap string pyval) :
  clicked w = Some AnalyzeForForgery ->
  orig w = Some f1 -> sus w = Some f2 ->
  load_file L f1 = Ok img1 -> load_file L f2 = Ok img2 ->
  let a1 := np_array L (resize L (600, 600) (convert L "L" img1)) in
  let a2 := np_array L (resize L (600, 600) (convert L "L" img2)) in
  (0.9 <? fst (ssim L a1 a2))%float = true ->
  run L w s
  = (Ok tt,
     World (<["forgery_score" := VFloat (fst (ssim L a1 a2))]> (initialised s))
           [ StWrite ("Similarity Score: " +:+ format_float L ".3f" (fst (ssim L a1 a2)));
             StSuccess "No forgery detected.";
             StImage ["Original"; "Suspect"; "Diff Map"] ]).
Proof.
  intros Hb H1 H2 Hl1 Hl2 a1 a2 Hscore.
  rewrite (run_clicked L w s _ Hb). simpl section_of.
  unfold tab_forgery, st_button, load_gray.
  rewrite bool_decide_eq_true_2 by exact Hb. rewrite H1, H2.
  st_unfold. rewrite Hl1, Hl2. cbn [rbind]. fold a1 a2.
  destruct (ssim L a1 a2) as [score diff]. cbn [fst] in Hscore.
  cbn [session_state rendered fst]. rewrite Hscore. reflexivity.
Qed.

(** * Further properties of the script *)

(** ** Remark lines *)

Lemma substring_split s i p q :
  substring i (p + q) s = substring i p s +:+ substring (i + p) q s.
Proof.
  revert i p. induction s as [|c s IH]; intros i p.
  - destruct i, p, q; reflexivity.
  - destruct i as [|i].
    + destruct p as [|p]; [reflexivity |].
      simpl. rewrite (IH 0%nat p). reflexivity.
    + simpl. apply IH.
Qed.

Lemma substring_past s i m : (String.length s <= i)%nat -> substring i m s = "".
Proof.
  revert i. induction s as [|c s IH]; intros i Hi.
  - destruct i, m; reflexivity.
  - destruct i as [|i]; simpl in *; [lia | apply IH; lia].
Qed.

Lemma append_empty_r s : s +:+ "" = s.
Proof.
  induction s as [|c s IH]; [reflexivity |].
  change (String c (s +:+ "") = String c s). rewrite IH. reflexivity.
Qed.

Lemma substring_covering s m : (String.length s <= m)%nat -> substring 0 m s = s.
Proof.
  intros H. replace m with (String.length s + (m - String.length s))%nat by lia.
  rewrite substring_split, substring_whole.
  rewrite (substring_past s) by (simpl; lia).
  apply append_empty_r.
Qed.

Lemma length_substring s i m :
  String.length (substring i m s) = Nat.min m (String.length s - i).
Proof.
  revert i m. induction s as [|c s IH]; intros i m.
  - destruct i, m; reflexivity.
  - destruct i as [|i].
    + destruct m as [|m]; [reflexivity |]. simpl. rewrite (IH 0%nat m).
      rewrite Nat.sub_0_r. reflexivity.
    + simpl. apply IH.
Qed.

Lemma substring_none s i : substring i 0 s = "".
Proof.
  revert i. induction s as [|c s IH]; intros [|i]; try reflexivity. simpl. apply IH.
Qed.

Lemma concat_chunks s a m :
  String.concat "" (map (fun k => slice (90 * k) 90 s) (seq a m))
  = substring (90 * a) (90 * m) s.
Proof.
  revert a. induction m as [|m IH]; intros a.
  - replace (90 * 0)%nat with 0%nat by reflexivity.
    rewrite substring_none. reflexivity.
  - cbn [seq map]. replace (90 * S m)%nat with (90 + 90 * m)%nat by lia.
    rewrite substring_split. replace (90 * a + 90)%nat with (90 * S a)%nat by lia.
    rewrite <- IH. unfold slice.
    destruct (map (fun k => substring (90 * k) 90 s) (seq (S a) m)) eqn:E.
    + simpl. symmetry. apply append_empty_r.
    + reflexivity.
Qed.

Lemma remark_line_count r :
  length (remark_lines r) = ((String.length r + 89) / 90)%nat.
Proof. unfold remark_lines. rewrite length_map, length_seq. reflexivity. Qed.

Lemma remark_line_lookup r i line :
  remark_lines r !! i = Some line ->
  line = slice (90 * i) 90 r /\ (i < (String.length r + 89) / 90)%nat.
Proof.
  intros Hi. unfold remark_lines in Hi.
  rewrite list_lookup_fmap in Hi.
  destruct (seq 0 ((String.length r + 89) / 90) !! i) as [k|] eqn:Hk; [|discriminate].
  apply lookup_seq in Hk as [-> Hlt]. injection Hi as <-. split; [reflexivity | exact Hlt].
Qed.

Lemma remark_line_length r i line :
  remark_lines r !! i = Some line -> (1 <= String.length line <= 90)%nat.
Proof.
  intros Hi. apply remark_line_lookup in Hi as [-> Hlt].
  pose proof (Nat.div_mod (String.length r + 89) 90 ltac:(lia)) as Hdm.
  pose proof (Nat.mod_upper_bound (String.length r + 89) 90 ltac:(lia)) as Hmod.
  unfold slice. rewrite length_substring. lia.
Qed.

(** X1. The remark lines are the remarks cut every 90 characters: joined
    again they give the remarks back, there is one line per started block of
    90 characters, and every line holds between 1 and 90 characters (so empty
    remarks give no line). *)
Theorem remark_lines_partition (r : string) :
  String.concat "" (remark_lines r) = r
  /\ length (remark_lines r) = ((String.length r + 89) / 90)%nat
  /\ Forall (fun line => (1 <= String.length line <= 90)%nat) (remark_lines r)
  /\ (forall i line, remark_lines r !! i = Some line ->
        line = slice (90 * i) 90 r
        /\ ((S i < length (remark_lines r))%nat -> String.length line = 90%nat)).
Proof.
  pose proof (Nat.div_mod (String.length r + 89) 90 ltac:(lia)) as Hdm.
  pose proof (Nat.mod_upper_bound (String.length r + 89) 90 ltac:(lia)) as Hmod.
  split; [|split; [apply remark_line_count | split]].
  - unfold remark_lines. rewrite concat_chunks. apply substring_covering. lia.
  - apply List.Forall_forall. intros line Hin.
    apply list_elem_of_In, list_elem_of_lookup in Hin as [i Hi].
    apply (remark_line_length r i line Hi).
  - intros i line Hi. apply remark_line_lookup in Hi as [-> Hlt]. split; [reflexivity |].
    rewrite remark_line_count. intros Hnext. unfold slice. rewrite length_substring. lia.
Qed.

Lemma draw_lines_at y lines i line :
  lines !! i = Some line ->
  In (DrawString 20 (y - 6 * Z.of_nat i) line) (draw_lines y lines).
Proof.
  revert y i. induction lines as [|l lines IH]; intros y [|i] Hi; try discriminate.
  - injection Hi as ->. left. f_equal. lia.
  - right. replace (y - 6 * Z.of_nat (S i)) with (y - 6 - 6 * Z.of_nat i) by lia.
    apply IH. exact Hi.
Qed.

Lemma draw_lines_no_page y lines : ~ In ShowPage (draw_lines y lines).
Proof.
  revert y. induction lines as [|l lines IH]; intros y; simpl; [tauto |].
  intros [H|H]; [discriminate | exact (IH _ H)].
Qed.

(** X2. In the report the remark lines follow one another 6 mm apart from
    159 mm downwards and the page is shown once, after the last line: there
    is no page break.  So when the remarks are longer than 2430 characters
    their 28th line is drawn below the bottom edge of the page, at -3 mm. *)
Theorem remark_lines_run_off_the_page (L : Library) (w : widgets) (s : gmap string pyval) :
  exists ops,
    report_ops L (clock w) (report_data w s) = Ok ops
    /\ (forall i line,
          remark_lines (remarks w) !! i = Some line ->
          In (DrawString 20 (159 - 6 * Z.of_nat i) line) ops)
    /\ (exists body, ops = body ++ [ShowPage] /\ ~ In ShowPage body)
    /\ ((2430 < String.length (remarks w))%nat ->
        exists line, line <> "" /\ In (DrawString 20 (-3) line) ops).
Proof.
  eexists. split; [apply report_ops_session |].
  assert (Hat : forall i line,
            remark_lines (remarks w) !! i = Some line ->
            In (DrawString 20 (159 - 6 * Z.of_nat i) line)
               (draw_lines 159 (remark_lines (remarks w)))).
  { intros i line Hi. apply draw_lines_at. exact Hi. }
  split; [|split].
  - intros i line Hi. do 4 (apply in_or_app; right).
    apply in_or_app; left. apply Hat. exact Hi.
  - eexists. split.
    + rewrite !app_assoc. reflexivity.
    + rewrite !in_app_iff. pose proof (draw_lines_no_page 159 (remark_lines (remarks w))).
      destruct (String.eqb (cust_name w) ""), (String.eqb (ref w) ""); simpl;
        intuition discriminate.
  - intros Hlong.
    destruct (lookup_lt_is_Some_2 (remark_lines (remarks w)) 27) as [line Hline].
    { rewrite remark_line_count.
      pose proof (Nat.div_mod (String.length (remarks w) + 89) 90 ltac:(lia)).
      pose proof (Nat.mod_upper_bound (String.length (remarks w) + 89) 90 ltac:(lia)).
      lia. }
    exists line. split.
    + pose proof (remark_line_length _ _ _ Hline) as Hlen.
      intros ->. simpl in Hlen. lia.
    + do 4 (apply in_or_app; right). apply in_or_app; left.
      apply (Hat 27%nat line Hline).
Qed.

Lemma remark_lines_run_off_the_page_witness :
  exists ops,
    report_ops quiet_library (clock no_widgets)
      (report_data (with_remarks (letters 2431) no_widgets) ∅) = Ok ops
    /\ In (DrawString 20 (-3) "a") ops.
Proof.
  destruct (remark_lines_run_off_the_page quiet_library
              (with_remarks (letters 2431) no_widgets) ∅) as (ops & Hops & Hat & _ & _).
  exists ops. split; [exact Hops |].
  apply (Hat 27%nat "a"). vm_compute. reflexivity.
Defined.

(** ** [generate_report_pdf] on any dictionary *)

Lemma draw_sections_report L data :
  draw_sections L (snd A4 - 48) (report_sections data)
  = ([ SetFont "Helvetica-Bold" 12; DrawString 20 249 "Document Forgery";
       SetFont "Helvetica" 10;
       DrawString 20 243 (value_line L (dict_get data "forgery_score"));
       SetFont "Helvetica-Bold" 12; DrawString 20 235 "Signature Verification";
       SetFont "Helvetica" 10;
       DrawString 20 229 (value_line L (dict_get data "signature_score"));
       SetFont "Helvetica-Bold" 12; DrawString 20 221 "Aadhaar OCR";
       SetFont "Helvetica" 10;
       DrawString 20 215 (value_line L (dict_get data "aadhaar_text"));
       SetFont "Helvetica-Bold" 12; DrawString 20 207 "PAN OCR";
       SetFont "Helvetica" 10;
       DrawString 20 201 (value_line L (dict_get data "pan_text"));
       SetFont "Helvetica-Bold" 12; DrawString 20 193 "KYC Face Match";
       SetFont "Helvetica" 10;
       DrawString 20 187 (value_line L (dict_get data "face_distance"));
       SetFont "Helvetica-Bold" 12; DrawString 20 179 "Transaction Summary";
       SetFont "Helvetica" 10;
       DrawString 20 173 (value_line L (dict_get data "transaction_frauds_count")) ],
     165).
Proof. reflexivity. Qed.

Lemma report_ops_any L now data r :
  match data !! "remarks" with Some v => v | None => VStr "None" end = VStr r ->
  exists head,
    report_ops L now data
    = Ok (head ++ fst (draw_sections L (snd A4 - 48) (report_sections data))
          ++ [SetFont "Helvetica-Bold" 12; DrawString 20 165 "Remarks"; SetFont "Helvetica" 10]
          ++ draw_lines 159 (remark_lines r) ++ [ShowPage]).
Proof.
  intros Hr. unfold report_ops. rewrite draw_sections_report, Hr.
  eexists. reflexivity.
Qed.

(** X3. [generate_report_pdf] accepts any dictionary.  A key that is missing
    reads as None: its section shows "Not analyzed", and missing remarks are
    drawn as the one line "None".  When the remarks are present but not a
    string the function raises TypeError and nothing is saved; in every other
    case the drawing succeeds and is what is handed to [save]. *)
Theorem report_of_any_dictionary (L : Library) (path now : string)
    (data : gmap string pyval) :
  (forall v, data !! "remarks" = Some v -> (forall r, v <> VStr r) ->
     exists e, exn_class e = "TypeError"
               /\ report_ops L now data = Raise e
               /\ generate_report_pdf L path now data = Raise e)
  /\ (forall r, match data !! "remarks" with Some v => v | None => VStr "None" end = VStr r ->
       exists ops pre,
         report_ops L now data = Ok ops
         /\ generate_report_pdf L path now data = canvas_save L path ops
         /\ drawn_texts ops = pre ++ "Remarks" :: remark_lines r
         /\ Forall (fun '(title, key, y) =>
                      In (DrawString 20 y title) ops
                      /\ In (DrawString 20 (y - 6) (value_line L (dict_get data key))) ops
                      /\ (data !! key = None -> In (DrawString 20 (y - 6) "Not analyzed") ops))
              section_heights)
  /\ (data !! "remarks" = None ->
      exists ops pre,
        report_ops L now data = Ok ops /\ drawn_texts ops = pre ++ ["Remarks"; "None"]).
Proof.
  split; [|split].
  - intros v Hv Hnot. unfold generate_report_pdf, report_ops.
    rewrite draw_sections_report, Hv.
    destruct v; try (eexists; repeat split; reflexivity).
    exfalso. exact (Hnot s eq_refl).
  - intros r Hr. destruct (report_ops_any L now data r Hr) as [head Hops].
    eexists. exists (drawn_texts head ++ drawn_texts
                       (fst (draw_sections L (snd A4 - 48) (report_sections data)))).
    split; [exact Hops | split; [|split]].
    + unfold generate_report_pdf. rewrite Hops. reflexivity.
    + rewrite !drawn_texts_app, drawn_texts_lines. cbn [drawn_texts].
      rewrite app_nil_r, <- app_assoc. reflexivity.
    + rewrite draw_sections_report. cbn [fst]. unfold section_heights.
      assert (Hnone : forall key, data !! key = None ->
                value_line L (dict_get data key) = "Not analyzed").
      { intros key Hk. unfold dict_get. rewrite Hk. reflexivity. }
      repeat (constructor; [split; [|split]; [| |intros HN; rewrite <- (Hnone _ HN)];
        (apply in_or_app; right; apply in_or_app; left; simpl; tauto) |]).
      constructor.
  - intros Hmiss.
    destruct (report_ops_any L now data "None") as [head Hops]; [rewrite Hmiss; reflexivity |].
    eexists. exists (drawn_texts head ++ drawn_texts
                       (fst (draw_sections L (snd A4 - 48) (report_sections data)))).
    split; [exact Hops |].
    rewrite !drawn_texts_app, drawn_texts_lines. cbn [drawn_texts].
    rewrite app_nil_r, <- app_assoc. reflexivity.
Qed.

Lemma report_of_any_dictionary_witness :
  exists e, exn_class e = "TypeError"
            /\ report_ops quiet_library "now" (<["remarks" := VInt 3]> ∅) = Raise e
            /\ generate_report_pdf quiet_library "out.pdf" "now" (<["remarks" := VInt 3]> ∅)
               = Raise e.
Proof.
  apply (proj1 (report_of_any_dictionary quiet_library "out.pdf" "now"
                  (<["remarks" := VInt 3]> ∅)) (VInt 3)).
  - vm_compute. reflexivity.
  - intros r. discriminate.
Defined.

(** ** The file type test of [load_image] *)

Lemma map_chars_append f a b : map_chars f (a +:+ b) = map_chars f a +:+ map_chars f b.
Proof.
  induction a as [|c a IH]; [reflexivity |].
  change (String (f c) (map_chars f (a +:+ b))
          = String (f c) (map_chars f a +:+ map_chars f b)).
  rewrite IH. reflexivity.
Qed.

Lemma endswith_append a suffix : endswith (a +:+ suffix) suffix = true.
Proof.
  unfold endswith. rewrite length_append_string.
  replace (String.length a + String.length suffix - String.length suffix)%nat
    with (String.length a) by lia.
  rewrite substring_append_r, String.eqb_refl.
  rewrite (proj2 (Nat.leb_le _ _)) by lia. reflexivity.
Qed.

(** X4. [load_image] decides by the end of the upload's name, whatever its
    letter case: a name that ends in ".pdf", ".PDF", ".Pdf", ... is converted
    with pdf2image and nothing is opened with PIL; every other name (those
    shorter than four characters included) is opened with PIL, whose result
    or exception is what [load_image] gives. *)
Theorem file_type_is_decided_by_suffix (L : Library) :
  (forall base ext bytes,
      lower ext = ".pdf" ->
      load_image L (Some (Upload (base +:+ ext) bytes))
      = match convert_from_bytes L bytes with
        | Ok (page :: _) => Ok (Some page)
        | Ok [] => Raise (Exception "IndexError" "list index out of range")
        | Raise e => Raise e
        end)
  /\ (forall f,
      endswith (lower (name f)) ".pdf" = false ->
      load_image L (Some f)
      = match Image_open L f with
        | Ok img => Ok (Some img)
        | Raise e => Raise e
        end)
  /\ (forall f, (String.length (name f) < 4)%nat -> endswith (lower (name f)) ".pdf" = false).
Proof.
  split; [|split].
  - intros base ext bytes Hext. unfold load_image, load_file. cbn [name content].
    unfold lower in *. rewrite map_chars_append, Hext, endswith_append.
    destruct (convert_from_bytes L bytes) as [[|page later]|e]; reflexivity.
  - intros f Hname. unfold load_image, load_file. rewrite Hname.
    destruct (Image_open L f); reflexivity.
  - intros f Hshort. unfold endswith, lower. rewrite length_map_chars.
    cbn [String.length]. rewrite (proj2 (Nat.leb_gt _ _)) by lia. reflexivity.
Qed.

Lemma file_type_is_decided_by_suffix_witness :
  load_image (lib_pages (Ok two_pages)) (Some (Upload ("statement" +:+ ".PdF") []))
  = Ok (Some [Byte.x01])
  /\ load_image (lib_pages (Raise boom)) (Some (Upload "face.png" [Byte.x07]))
     = Ok (Some [Byte.x07]).
Proof.
  split.
  - exact (proj1 (file_type_is_decided_by_suffix (lib_pages (Ok two_pages)))
             "statement" ".PdF" [] eq_refl).
  - exact (proj1 (proj2 (file_type_is_decided_by_suffix (lib_pages (Raise boom))))
             (Upload "face.png" [Byte.x07]) eq_refl).
Defined.

(** ** What the analysis tabs store and show *)

Lemma ltb_nan_r (x : float) : (x <? nan)%float = false.
Proof.
  rewrite FloatAxioms.ltb_spec. change (Prim2SF nan) with S754_nan.
  destruct (Prim2SF x) as [| | |]; reflexivity.
Qed.

(** X5. When both documents load, the forgery tab stores the similarity
    score as forgery_score whatever the verdict, and shows the score, one
    verdict and the three images.  The verdict is "No forgery detected."
    above 0.9, "Minor differences detected." above 0.6 and "High chance of
    forgery." otherwise; a score that is NaN gets the last one. *)
Theorem forgery_score_and_verdict (L : Library) (w : widgets) (f1 f2 : uploaded_file)
    (img1 img2 : image L) (s : gmap string pyval) :
  clicked w = Some AnalyzeForForgery ->
  orig w = Some f1 -> sus w = Some f2 ->
  load_file L f1 = Ok img1 -> load_file L f2 = Ok img2 ->
  let a1 := np_array L (resize L (600, 600) (convert L "L" img1)) in
  let a2 := np_array L (resize L (600, 600) (convert L "L" img2)) in
  let score := fst (ssim L a1 a2) in
  run L w s
  = (Ok tt,
     World (<["forgery_score" := VFloat score]> (initialised s))
           [ StWrite ("Similarity Score: " +:+ format_float L ".3f" score);
             forgery_verdict score;
             StImage ["Original"; "Suspect"; "Diff Map"] ])
  /\ (score = nan -> forgery_verdict score = StError "High chance of forgery.").
Proof.
  intros Hb H1 H2 Hl1 Hl2 a1 a2 score. split.
  - rewrite (run_clicked L w s _ Hb). simpl section_of.
    unfold tab_forgery, st_button, load_gray.
    rewrite bool_decide_eq_true_2 by exact Hb. rewrite H1, H2.
    st_unfold. rewrite Hl1, Hl2. cbn [rbind]. fold a1 a2.
    unfold score, forgery_verdict. destruct (ssim L a1 a2) as [sc diff].
    cbn [session_state rendered fst].
    destruct (0.9 <? sc)%float; [reflexivity |].
    destruct (0.6 <? sc)%float; reflexivity.
  - intros ->. unfold forgery_verdict. rewrite !ltb_nan_r. reflexivity.
Qed.

Lemma forgery_score_and_verdict_witness :
  run (lib_score 0.75) (click AnalyzeForForgery (with_docs photo photo no_widgets)) ∅
  = (Ok tt,
     World (<["forgery_score" := VFloat 0.75]> (initialised ∅))
           [ StWrite "Similarity Score: <float.3f>";
             StWarning "Minor differences detected.";
             StImage ["Original"; "Suspect"; "Diff Map"] ]).
Proof.
  exact (proj1 (forgery_score_and_verdict (lib_score 0.75)
                  (click AnalyzeForForgery (with_docs photo photo no_widgets))
                  photo photo [] [] ∅ eq_refl eq_refl eq_refl eq_refl eq_refl)).
Defined.

(** X6. When both signatures load, the signature tab stores the similarity
    as signature_score whatever the verdict and shows the score, one verdict
    and the two images: "Signatures appear genuine." above 0.85, "Partial
    match - suspicious." above 0.6, "Signatures likely forged." otherwise,
    also for a NaN score. *)
Theorem signature_score_and_verdict (L : Library) (w : widgets) (f1 f2 : uploaded_file)
    (img1 img2 : image L) (s : gmap string pyval) :
  clicked w = Some VerifySignature ->
  sig_orig w = Some f1 -> sig_sus w = Some f2 ->
  load_file L f1 = Ok img1 -> load_file L f2 = Ok img2 ->
  let a1 := np_array L (resize L (300, 300) (convert L "L" img1)) in
  let a2 := np_array L (resize L (300, 300) (convert L "L" img2)) in
  let sscore := fst (ssim L a1 a2) in
  run L w s
  = (Ok tt,
     World (<["signature_score" := VFloat sscore]> (initialised s))
           [ StWrite ("Signature Similarity: " +:+ format_float L ".3f" sscore);
             signature_verdict sscore;
             StImage ["Original Sig"; "Suspect Sig"] ])
  /\ (sscore = nan -> signature_verdict sscore = StError "Signatures likely forged.").
Proof.
  intros Hb H1 H2 Hl1 Hl2 a1 a2 sscore. split.
  - rewrite (run_clicked L w s _ Hb). simpl section_of.
    unfold tab_signature, st_button, load_gray.
    rewrite bool_decide_eq_true_2 by exact Hb. rewrite H1, H2.
    st_unfold. rewrite Hl1, Hl2. cbn [rbind]. fold a1 a2.
    unfold sscore, signature_verdict. destruct (ssim L a1 a2) as [sc diff].
    cbn [session_state rendered fst].
    destruct (0.85 <? sc)%float; [reflexivity |].
    destruct (0.6 <? sc)%float; reflexivity.
  - intros ->. unfold signature_verdict. rewrite !ltb_nan_r. reflexivity.
Qed.

Lemma signature_score_and_verdict_witness :
  run (lib_score 0.5) (click VerifySignature (with_sigs photo photo no_widgets)) ∅
  = (Ok tt,
     World (<["signature_score" := VFloat 0.5]> (initialised ∅))
           [ StWrite "Signature Similarity: <float.3f>";
             StError "Signatures likely forged.";
             StImage ["Original Sig"; "Suspect Sig"] ]).
Proof.
  exact (proj1 (signature_score_and_verdict (lib_score 0.5)
                  (click VerifySignature (with_sigs photo photo no_widgets))
                  photo photo [] [] ∅ eq_refl eq_refl eq_refl eq_refl eq_refl)).
Defined.

(** ** Uploads that fail to load *)

(** X7. The first four tabs have no handler around [load_image]: when an
    upload fails to load (PIL or pdf2image raises, or a PDF has no page) the
    exception leaves the run, nothing is rendered and no field is assigned.
    In the two-document tabs the first upload is loaded first, so its
    exception is the one raised. *)
Theorem load_errors_propagate (L : Library) (w : widgets) (s : gmap string pyval) (e : exn) :
  (forall f1 f2,
      clicked w = Some AnalyzeForForgery -> orig w = Some f1 -> sus w = Some f2 ->
      load_file L f1 = Raise e
      \/ (exists img, load_file L f1 = Ok img) /\ load_file L f2 = Raise e ->
      run L w s = (Raise e, World (initialised s) []))
  /\ (forall f1 f2,
      clicked w = Some VerifySignature -> sig_orig w = Some f1 -> sig_sus w = Some f2 ->
      load_file L f1 = Raise e
      \/ (exists img, load_file L f1 = Ok img) /\ load_file L f2 = Raise e ->
      run L w s = (Raise e, World (initialised s) []))
  /\ (forall f,
      clicked w = Some ExtractAadhaar -> aad w = Some f -> load_file L f = Raise e ->
      run L w s = (Raise e, World (initialised s) []))
  /\ (forall f,
      clicked w = Some ExtractPAN -> pan w = Some f -> load_file L f = Raise e ->
      run L w s = (Raise e, World (initialised s) [])).
Proof.
  split; [|split; [|split]].
  - intros f1 f2 Hb H1 H2 Hload. rewrite (run_clicked L w s _ Hb). simpl section_of.
    unfold tab_forgery, st_button, load_gray.
    rewrite bool_decide_eq_true_2 by exact Hb. rewrite H1, H2. st_unfold.
    destruct Hload as [Hl1|[[img Hl1] Hl2]]; rewrite Hl1; [reflexivity |].
    rewrite Hl2. reflexivity.
  - intros f1 f2 Hb H1 H2 Hload. rewrite (run_clicked L w s _ Hb). simpl section_of.
    unfold tab_signature, st_button, load_gray.
    rewrite bool_decide_eq_true_2 by exact Hb. rewrite H1, H2. st_unfold.
    destruct Hload as [Hl1|[[img Hl1] Hl2]]; rewrite Hl1; [reflexivity |].
    rewrite Hl2. reflexivity.
  - intros f Hb Hf Hload. rewrite (run_clicked L w s _ Hb). simpl section_of.
    unfold tab_aadhaar, st_button, ocr_text.
    rewrite bool_decide_eq_true_2 by exact Hb. rewrite Hf. st_unfold.
    rewrite Hload. reflexivity.
  - intros f Hb Hf Hload. rewrite (run_clicked L w s _ Hb). simpl section_of.
    unfold tab_pan, st_button, ocr_text.
    rewrite bool_decide_eq_true_2 by exact Hb. rewrite Hf. st_unfold.
    rewrite Hload. reflexivity.
Qed.

Lemma load_errors_propagate_witness :
  run (lib_pages (Raise boom)) (click AnalyzeForForgery (with_docs scan photo no_widgets)) ∅
  = (Raise boom, World (initialised ∅) [])
  /\ run (lib_pages (Ok [])) (click ExtractPAN (with_cards photo scan no_widgets)) ∅
     = (Raise (Exception "IndexError" "list index out of range"), World (initialised ∅) []).
Proof.
  split.
  - exact (proj1 (load_errors_propagate (lib_pages (Raise boom))
                    (click AnalyzeForForgery (with_docs scan photo no_widgets)) ∅ boom)
             scan photo eq_refl eq_refl eq_refl (or_introl eq_refl)).
  - exact (proj2 (proj2 (proj2 (load_errors_propagate (lib_pages (Ok []))
                    (click ExtractPAN (with_cards photo scan no_widgets)) ∅
                    (Exception "IndexError" "list index out of range"))))
             scan eq_refl eq_refl eq_refl).
Defined.

(** ** The OCR tabs *)

(** X8. When the card image loads, the Aadhaar tab stores the recognised
    texts joined by single spaces as aadhaar_text and shows them, whether or
    not a 12-digit number is found in them; the PAN tab does the same for
    pan_text, matching its pattern against the upper-cased text while the
    text stored keeps its case.  When nothing is recognised the stored text
    is the empty string, not None, and the report prints it as "...". *)
Theorem ocr_text_is_stored (L : Library) (w : widgets) (f : uploaded_file) (img : image L)
    (s : gmap string pyval) :
  load_file L f = Ok img ->
  let text := join " " (readtext L (np_array L (convert L "RGB" img))) in
  (clicked w = Some ExtractAadhaar -> aad w = Some f ->
   run L w s
   = (Ok tt,
      World (<["aadhaar_text" := VStr text]> (initialised s))
            [ StTextArea "Extracted Text" text;
              match re_findall L "\d{4}\s*\d{4}\s*\d{4}|\d{12}" text with
              | found :: _ => StSuccess ("Aadhaar-like number found: " +:+ found)
              | [] => StWarning "No 12-digit Aadhaar number detected."
              end ]))
  /\ (clicked w = Some ExtractPAN -> pan w = Some f ->
      run L w s
      = (Ok tt,
         World (<["pan_text" := VStr text]> (initialised s))
               [ StTextArea "Extracted Text" text;
                 match re_findall L "[A-Z]{5}[0-9]{4}[A-Z]" (upper text) with
                 | found :: _ => StSuccess ("PAN-like number found: " +:+ found)
                 | [] => StWarning "PAN number not confidently detected."
                 end ]))
  /\ (readtext L (np_array L (convert L "RGB" img)) = [] ->
      text = "" /\ value_line L (VStr text) = "...").
Proof.
  intros Hload text. split; [|split].
  - intros Hb Hf. rewrite (run_clicked L w s _ Hb). simpl section_of.
    unfold tab_aadhaar, st_button, ocr_text.
    rewrite bool_decide_eq_true_2 by exact Hb. rewrite Hf. st_unfold.
    rewrite Hload. cbn [rbind session_state rendered]. fold text.
    destruct (re_findall L _ text); reflexivity.
  - intros Hb Hf. rewrite (run_clicked L w s _ Hb). simpl section_of.
    unfold tab_pan, st_button, ocr_text.
    rewrite bool_decide_eq_true_2 by exact Hb. rewrite Hf. st_unfold.
    rewrite Hload. cbn [rbind session_state rendered]. fold text.
    destruct (re_findall L _ (upper text)); reflexivity.
  - intros Hnone. unfold text. rewrite Hnone. split; reflexivity.
Qed.

Lemma ocr_text_is_stored_witness :
  run (lib_ocr ["GOVT"; "1234 5678 9012"]) (click ExtractAadhaar (with_cards photo photo no_widgets)) ∅
  = (Ok tt,
     World (<["aadhaar_text" := VStr "GOVT 1234 5678 9012"]> (initialised ∅))
           [ StTextArea "Extracted Text" "GOVT 1234 5678 9012";
             StWarning "No 12-digit Aadhaar number detected." ]).
Proof.
  exact (proj1 (ocr_text_is_stored (lib_ocr ["GOVT"; "1234 5678 9012"])
                  (click ExtractAadhaar (with_cards photo photo no_widgets))
                  photo [] ∅ eq_refl) eq_refl eq_refl).
Defined.

(** ** The KYC tab *)

(** X9. When the face verification returns, the KYC tab assigns both
    face_distance and face_verified: the distance and the flag of the result,
    0.0 and False for a key the result lacks.  It shows the distance and
    "Face match verified." for a true flag, "Face mismatch." otherwise, so a
    result without a flag is shown as a mismatch. *)
Theorem face_match_outcome (L : Library) (w : widgets) (f1 f2 : uploaded_file)
    (res : verify_result) (s : gmap string pyval) :
  clicked w = Some CompareFaces ->
  id_face w = Some f1 -> live_face w = Some f2 ->
  verify_faces L f1 f2 = Ok res ->
  let d := default 0%float (distance res) in
  let v := default false (verified res) in
  run L w s
  = (Ok tt,
     World (<["face_verified" := VBool v]> (<["face_distance" := VFloat d]> (initialised s)))
           [ StWrite ("Distance: " +:+ format_float L ".4f" d);
             if v then StSuccess "Face match verified." else StError "Face mismatch." ])
  /\ (verified res = None -> v = false)
  /\ (distance res = None -> d = 0%float).
Proof.
  intros Hb H1 H2 Hres d v.
  split; [|split; intros H; unfold d, v; rewrite H; reflexivity].
  rewrite (run_clicked L w s _ Hb). simpl section_of.
  unfold tab_kyc, st_button.
  rewrite bool_decide_eq_true_2 by exact Hb. rewrite H1, H2. st_unfold.
  rewrite Hres. cbn [session_state rendered]. fold d v.
  rewrite lookup_insert_ne by discriminate. rewrite lookup_insert_eq.
  cbn [py_format session_state rendered]. rewrite lookup_insert_eq.
  cbn [truthy]. destruct v; reflexivity.
Qed.

Lemma face_match_outcome_witness :
  run (lib_faces (Ok no_faces)) faces_click ∅
  = (Ok tt,
     World (<["face_verified" := VBool false]> (<["face_distance" := VFloat 0]> (initialised ∅)))
           [ StWrite "Distance: <float.4f>"; StError "Face mismatch." ]).
Proof.
  exact (proj1 (face_match_outcome (lib_faces (Ok no_faces)) faces_click photo photo no_faces ∅
                  eq_refl eq_refl eq_refl eq_refl)).
Defined.

(** ** Invariants of the session *)

Lemma section_delta_cases L b w :
  let delta := session_state (snd (section_of L b w (World ∅ []))) in
  delta = ∅
  \/ (exists x, delta = <["forgery_score" := VFloat x]> ∅)
  \/ (exists x, delta = <["signature_score" := VFloat x]> ∅)
  \/ (exists t, delta = <["aadhaar_text" := VStr t]> ∅)
  \/ (exists t, delta = <["pan_text" := VStr t]> ∅)
  \/ (exists d v, delta = <["face_verified" := VBool v]> (<["face_distance" := VFloat d]> ∅))
  \/ (exists n : nat, delta = <["transaction_frauds_count" := VInt (Z.of_nat n)]> ∅).
Proof.
  destruct b; unfold_sections; crush_section;
    repeat (first [left; solve [repeat eexists; reflexivity] | right]);
    solve [repeat eexists; reflexivity].
Qed.

Lemma dict_get_union (d m : gmap string pyval) k :
  dict_get (d ∪ m) k = match d !! k with Some v => v | None => dict_get m k end.
Proof.
  unfold dict_get. destruct (d !! k) as [v|] eqn:E.
  - rewrite (lookup_union_Some_l _ _ _ _ E). reflexivity.
  - rewrite lookup_union_r by exact E. reflexivity.
Qed.

Lemma session_typed_run L w s :
  session_typed s -> session_typed (session_state (snd (run L w s))).
Proof.
  intros (H1 & H2 & H3 & H4 & H5 & H6 & H7 & H8).
  rewrite run_session. destruct (clicked w) as [b|].
  - destruct (section_delta_cases L b w)
      as [E|[[x E]|[[x E]|[[t E]|[[t E]|[(d & v & E)|[n E]]]]]]];
      rewrite E; unfold session_typed; rewrite !dict_get_union; read_delta;
      rewrite !dict_get_initialised;
      repeat split; try assumption; try exact I; try (apply H8); try discriminate;
      try (simpl; lia).
  - unfold session_typed. rewrite !dict_get_initialised.
    repeat split; try assumption; apply H8.
Qed.

Lemma session_typed_runs L ws : session_typed (runs L ws ∅).
Proof.
  induction ws as [|w ws IH] using rev_ind.
  - unfold session_typed, dict_get. cbn. rewrite !lookup_empty. cbn. tauto.
  - rewrite runs_snoc. apply session_typed_run. exact IH.
Qed.

(** X10. Whatever the sequence of interactions since the session began,
    every field holds None or a value of its own kind: the two scores and
    the face distance are floats, the two OCR texts are strings, the face
    flag is a boolean and the fraud count is an integer that is not
    negative. *)
Theorem session_fields_keep_their_types (L : Library) (ws : list widgets) :
  let s := runs L ws ∅ in
  none_or_float (dict_get s "forgery_score")
  /\ none_or_float (dict_get s "signature_score")
  /\ none_or_str (dict_get s "aadhaar_text")
  /\ none_or_str (dict_get s "pan_text")
  /\ none_or_float (dict_get s "face_distance")
  /\ none_or_bool (dict_get s "face_verified")
  /\ none_or_count (dict_get s "transaction_frauds_count").
Proof.
  intros s. destruct (session_typed_runs L ws) as (H1 & H2 & H3 & H4 & H5 & H6 & H7 & _).
  repeat split; assumption.
Qed.

(** X11. The two fields of the KYC tab are assigned together: after any
    sequence of interactions face_distance is None exactly when face_verified
    is None. *)
Theorem face_fields_are_set_together (L : Library) (ws : list widgets) :
  dict_get (runs L ws ∅) "face_distance" = VNone
  <-> dict_get (runs L ws ∅) "face_verified" = VNone.
Proof.
  destruct (session_typed_runs L ws) as (_ & _ & _ & _ & _ & _ & _ & H). exact H.
Qed.

(** ** Initialisation and reruns *)

Lemma initialised_fixed s :
  (forall k, k ∈ session_keys -> is_Some (s !! k)) -> initialised s = s.
Proof.
  intros Hkeys. apply map_eq. intros k. rewrite initialised_lookup.
  destruct (s !! k) as [v|] eqn:E; [reflexivity |].
  destruct (bool_decide (k ∈ session_keys)) eqn:Hk; [|reflexivity].
  apply bool_decide_eq_true in Hk. destruct (Hkeys k Hk) as [v Hv]. congruence.
Qed.

Lemma initialised_keys s k : k ∈ session_keys -> is_Some (initialised s !! k).
Proof. intros Hk. rewrite (initialised_has_key s k Hk). eauto. Qed.

Lemma run_session_fixed L w s :
  initialised (session_state (snd (run L w s))) = session_state (snd (run L w s)).
Proof.
  apply initialised_fixed. intros k Hk. rewrite run_session.
  destruct (clicked w) as [b|]; [|apply initialised_keys; exact Hk].
  apply lookup_union_is_Some. right. apply initialised_keys. exact Hk.
Qed.



(** X13. A run that ends in an exception has assigned nothing: every field
    reads as it did before the run, so an earlier result stays in place when a
    later analysis fails. *)
Theorem failed_runs_assign_nothing (L : Library) (w : widgets) (s : gmap string pyval)
    (e : exn) :
  fst (run L w s) = Raise e ->
  forall k, dict_get (session_state (snd (run L w s))) k = dict_get s k.
Proof.
  intros Hfail k. apply run_keeps.
  destruct (clicked w) as [b|] eqn:Hb; [|exact I].
  destruct (session_state (snd (section_of L b w (World ∅ []))) !! k) as [v|] eqn:E;
    [|reflexivity].
  destruct (run_assigns L w s b k v Hb E) as (_ & Hok & _). congruence.
Qed.

Lemma failed_runs_assign_nothing_witness :
  dict_get (session_state (snd (run (lib_pages (Raise boom))
                                  (click AnalyzeForForgery (with_docs scan photo no_widgets))
                                  (<["forgery_score" := VFloat 0.5]> ∅))))
    "forgery_score"
  = dict_get (<["forgery_score" := VFloat 0.5]> ∅) "forgery_score".
Proof.
  apply (failed_runs_assign_nothing (lib_pages (Raise boom))
           (click AnalyzeForForgery (with_docs scan photo no_widgets))
           (<["forgery_score" := VFloat 0.5]> ∅) boom).
  vm_compute. reflexivity.
Defined.

(** ** The report after other runs *)

(** X14. The report section works on the session exactly as the previous run
    left it: it hands [generate_report_pdf] that session's seven fields with
    the customer name, reference and remarks, shows either the download
    button or the error of the generation, and leaves the session as it
    was. *)
Theorem report_reads_previous_run (L : Library) (w1 w2 : widgets) (s : gmap string pyval) :
  clicked w2 = Some GeneratePDFReport ->
  let s1 := session_state (snd (run L w1 s)) in
  run L w2 s1
  = (Ok tt,
     World s1
       [ match generate_report_pdf L (out_pdf w2) (clock w2) (report_data w2 s1) with
         | Ok _ => StDownloadButton "📥 Download Fraud Report (PDF)" (report_file_name w2)
         | Raise e => StError ("PDF generation error: " +:+ exn_text e)
         end ])
  /\ Forall (fun k => dict_get (report_data w2 s1) k = dict_get s1 k) session_keys
  /\ dict_get (report_data w2 s1) "remarks" = VStr (remarks w2).
Proof.
  intros Hb s1. split; [|split].
  - rewrite (run_clicked L w2 s1 _ Hb). simpl section_of.
    rewrite report_outcome by exact Hb.
    unfold s1. rewrite run_session_fixed. reflexivity.
  - clearbody s1. unfold session_keys.
    repeat (constructor; [apply (proj2 (proj2 (proj2 (report_data_get w2 s1)))) || reflexivity |]).
    constructor.
  - clearbody s1. reflexivity.
Qed.

Lemma report_reads_previous_run_witness :
  run (lib_csv (Ok payments)) report_click
    (session_state (snd (run (lib_csv (Ok payments)) txn_click ∅)))
  = (Ok tt,
     World (session_state (snd (run (lib_csv (Ok payments)) txn_click ∅)))
       [ StDownloadButton "📥 Download Fraud Report (PDF)" "fraud_report_20240101_100000.pdf" ]).
Proof.
  exact (proj1 (report_reads_previous_run (lib_csv (Ok payments)) txn_click report_click ∅
                  eq_refl)).
Defined.

(** X15. A section of the report shows "Not analyzed" whenever the button of
    its tab was never pressed since the session began. *)
Theorem untouched_sections_show_not_analyzed (L : Library) (ws : list widgets) (w : widgets)
    (title key : string) :
  (title, key) ∈ section_fields ->
  (forall w0 b, w0 ∈ ws -> clicked w0 = Some b -> key ∉ fields_of b) ->
  exists ops y,
    report_ops L (clock w) (report_data w (runs L ws ∅)) = Ok ops
    /\ In (DrawString 20 y title) ops
    /\ In (DrawString 20 (y - 6) "Not analyzed") ops.
Proof.
  intros Hin Hnever.
  destruct (section_line_drawn L w (runs L ws ∅) title key Hin) as (ops & y & Hops & Ht & Hv).
  exists ops, y. split; [exact Hops | split; [exact Ht |]].
  destruct (field_none_until_assigned L ws key)
    as [Hnone|(ws1 & w0 & ws2 & b & -> & Hb & Hfield & _)].
  - rewrite Hnone in Hv. exact Hv.
  - exfalso. apply (Hnever w0 b); try assumption.
    apply elem_of_app. right. left.
Qed.

Lemma untouched_sections_show_not_analyzed_witness :
  exists ops y,
    report_ops (lib_csv (Ok payments)) (clock no_widgets)
      (report_data no_widgets (runs (lib_csv (Ok payments)) [txn_click] ∅)) = Ok ops
    /\ In (DrawString 20 y "PAN OCR") ops
    /\ In (DrawString 20 (y - 6) "Not analyzed") ops.
Proof.
  apply (untouched_sections_show_not_analyzed (lib_csv (Ok payments)) [txn_click]
           no_widgets "PAN OCR" "pan_text").
  - in_keys.
  - intros w0 b Hw0 Hb. apply list_elem_of_singleton in Hw0. subst w0.
    injection Hb as <-. apply (bool_decide_unpack _). vm_compute. exact I.
Defined.

(** X16. The report section relies on the initialisation loop: run on a
    session that lacks one of the seven keys it raises AttributeError before
    anything is generated or rendered (inside the script this cannot happen,
    the loop runs first). *)
Theorem report_needs_initialised_session (L : Library) (w : widgets) (s : gmap string pyval)
    (pg : list element) (k : string) :
  clicked w = Some GeneratePDFReport ->
  k ∈ session_keys ->
  s !! k = None ->
  exists e, exn_class e = "AttributeError" /\ report L w (World s pg) = (Raise e, World s pg).
Proof.
  intros Hb Hk Hnone. unfold report, st_button.
  rewrite bool_decide_eq_true_2 by exact Hb. unfold session_keys in Hk.
  repeat (apply elem_of_cons in Hk as [->|Hk]);
    try (apply elem_of_nil in Hk; contradiction);
    unfold read_report_data; st_unfold; crush_section;
    try congruence; eexists (Exception "AttributeError" _); split; reflexivity.
Qed.

Lemma report_needs_initialised_session_witness :
  exists e, exn_class e = "AttributeError"
            /\ report quiet_library report_click (World ∅ []) = (Raise e, World ∅ []).
Proof.
  apply (report_needs_initialised_session quiet_library report_click ∅ [] "pan_text" eq_refl).
  - in_keys.
  - apply lookup_empty.
Defined.

(** ** More on the outlier rule *)

Lemma SFcompare_refl (x : spec_float) : x <> S754_nan -> SFeqb x x = true.
Proof.
  unfold SFeqb. destruct x as [s|s| |s m e]; intros H; try congruence.
  - reflexivity.
  - destruct s; reflexivity.
  - destruct s; cbn [SFcompare]; rewrite Z.compare_refl, Pos.compare_cont_refl; reflexivity.
Qed.

Lemma ltb_not_nan (t x : float) : (t <? x)%float = true -> PrimFloat.is_nan x = false.
Proof.
  intros H. unfold PrimFloat.is_nan. rewrite FloatAxioms.eqb_spec.
  rewrite FloatAxioms.ltb_spec in H.
  rewrite SFcompare_refl; [reflexivity |].
  intros Hnan. rewrite Hnan in H. unfold SFltb in H.
  destruct (Prim2SF t); cbn [SFcompare] in H; discriminate H.
Qed.

Lemma filter_sublist {A} (p : A -> bool) (l : list A) : sublist (List.filter p l) l.
Proof.
  induction l as [|x l IH]; simpl; [constructor |].
  destruct (p x); [apply sublist_skip | apply sublist_cons]; exact IH.
Qed.

(** X17. In a successful transaction analysis the table of frauds that the
    run counts, stores and renders has the columns of the uploaded table, its
    rows are rows of that table in their original order, it holds no row
    whose amount is missing (NaN), and the stored count lies between 0 and
    the number of rows of the table. *)
Theorem flagged_rows_are_present_rows (L : Library) (w : widgets) (f : uploaded_file)
    (df : DataFrame) (xs : list float) (s : gmap string pyval) :
  clicked w = Some AnalyzeTransactions ->
  txn w = Some f ->
  read_csv L f = Ok df ->
  amounts df = Ok xs ->
  exists frauds,
    run L w s
    = (Ok tt,
       World (<["transaction_frauds_count" := VInt (df_len frauds)]> (initialised s))
             ([StWriteFrame (df_head df);
               StMetric "Potential Fraud Transactions" (df_len frauds)]
              ++ (if df_empty frauds then [] else [StDataframe frauds])))
    /\ columns frauds = columns df
    /\ sublist (rows frauds) (rows df)
    /\ (forall row, In row (rows frauds) ->
          exists x, amount_of df row = Num x /\ PrimFloat.is_nan x = false)
    /\ 0 <= df_len frauds <= df_len df.
Proof.
  intros Hb Hf Hcsv Hxs.
  set (threshold := (mean L xs + 3 * std L xs)%float).
  exists {| columns := columns df; rows := List.filter (exceeds df threshold) (rows df) |}.
  split; [|split; [|split; [|split]]].
  - apply (run_transactions_numeric L w f df xs s Hb Hf Hcsv Hxs).
  - reflexivity.
  - apply filter_sublist.
  - intros row Hin. cbn [rows] in Hin. apply filter_In in Hin as [_ Hex].
    unfold exceeds in Hex. destruct (amount_of df row) as [x|t]; [|discriminate].
    exists x. split; [reflexivity |]. apply (ltb_not_nan threshold). exact Hex.
  - pose proof (List.filter_length_le (exceeds df threshold) (rows df)) as Hle.
    unfold df_len. cbn [rows]. lia.
Qed.

Lemma flagged_rows_are_present_rows_witness :
  exists frauds,
    run (lib_csv (Ok payments)) txn_click ∅
    = (Ok tt,
       World (<["transaction_frauds_count" := VInt (df_len frauds)]> (initialised ∅))
             ([StWriteFrame (df_head payments);
               StMetric "Potential Fraud Transactions" (df_len frauds)]
              ++ (if df_empty frauds then [] else [StDataframe frauds])))
    /\ columns frauds = columns payments
    /\ sublist (rows frauds) (rows payments)
    /\ (forall row, In row (rows frauds) ->
          exists x, amount_of payments row = Num x /\ PrimFloat.is_nan x = false)
    /\ 0 <= df_len frauds <= df_len payments.
Proof.
  exact (flagged_rows_are_present_rows (lib_csv (Ok payments)) txn_click csv_file
           payments payment_amounts ∅ eq_refl eq_refl eq_refl eq_refl).
Defined.

(** ** The style sheet loader *)

(** X18. [local_css] survives a missing style sheet and nothing else: when
    reading the file raises FileNotFoundError it gives the warning that names
    the file, any other exception of the read leaves [local_css] unchanged,
    and a file that is read is wrapped in a style element. *)
Theorem local_css_catches_missing_file_only (read_text : string -> result string)
    (file_name : string) :
  (forall e, local_css read_text file_name = Raise e
             <-> read_text file_name = Raise e /\ exn_class e <> "FileNotFoundError")
  /\ (forall e, read_text file_name = Raise e -> exn_class e = "FileNotFoundError" ->
        local_css read_text file_name
        = Ok (PageWarning ("⚠ CSS file '" +:+ file_name
                           +:+ "' not found. Continuing without styling.")))
  /\ (forall css, read_text file_name = Ok css ->
        local_css read_text file_name = Ok (Markdown ("<style>" +:+ css +:+ "</style>"))).
Proof.
  unfold local_css. split; [|split].
  - intros e. destruct (read_text file_name) as [css|e0].
    + split; [discriminate | intros [H _]; discriminate].
    + destruct (String.eqb (exn_class e0) "FileNotFoundError") eqn:E.
      * apply String.eqb_eq in E. split; [discriminate |].
        intros [[= ->] Hne]. contradiction.
      * apply String.eqb_neq in E. split.
        -- intros [= ->]. split; [reflexivity | exact E].
        -- intros [[= ->] _]. reflexivity.
  - intros e -> Hclass. rewrite Hclass. reflexivity.
  - intros css ->. reflexivity.
Qed.

Lemma local_css_catches_missing_file_only_witness :
  local_css (fun _ => Raise (Exception "FileNotFoundError" "No such file")) "style.css"
  = Ok (PageWarning "⚠ CSS file 'style.css' not found. Continuing without styling.")
  /\ local_css (fun _ => Raise (Exception "PermissionError" "denied")) "style.css"
     = Raise (Exception "PermissionError" "denied").
Proof.
  split.
  - exact (proj1 (proj2 (local_css_catches_missing_file_only
                           (fun _ => Raise (Exception "FileNotFoundError" "No such file"))
                           "style.css"))
             (Exception "FileNotFoundError" "No such file") eq_refl eq_refl).
  - apply (proj1 (local_css_catches_missing_file_only
                    (fun _ => Raise (Exception "PermissionError" "denied")) "style.css")).
    split; [reflexivity | discriminate].
Defined.
